(** * Headless combobox: the state machine of [src/combobox.ts]

    A shallow embedding of the combobox state manager: the [Model] value,
    the [Msg] events, the transition function [update] with its effect list
    and its [skipOnce] suppression queue, and the selectors that read a
    model.  A definition that bears a name of the source transcribes that
    function; the few others say which lines of the source they stand for.
    [removeFirst] and [circularIndex] are imported from [utils.ts] by
    [combobox.ts]; they are transcribed from the copies that the example
    applications carry inline.

    Conventions of the embedding.
    - A JavaScript [number] used as an index is an integer [Z]; the JavaScript
      remainder [%] on integers truncates towards zero and is [Z.rem].  An
      addition to an index that the caller can set is [jsAdd], which rounds
      the sum to the nearest double as the JavaScript [+] does; the additions
      on loop counters and array lengths stay below [2^53] and are exact.
    - An array is a [list]; [arr[i]] is [at_index arr i], which is [None]
      (JavaScript [undefined]) outside [0 .. length - 1].
    - Items are opaque values of a type [T], any JavaScript values.  The
      source tests some of them for truthiness ([if (item)], [if (!item)],
      [item ? a : b]); the class [Truthy] gives the truthiness of the values
      of [T], and [at_truthy] is an array lookup followed by such a test.
      For items that are objects every value is truthy.
    - [ModelState] is the tagged union of the source.  An object spread
      [{...model, type: "focused__closed"}] keeps a stale [highlightIndex]
      or [focusedIndex] property at run time; the source reads these
      properties only under the matching tag and overwrites them on every
      entry to that tag, so the embedding follows the declared union and
      keeps the index as the payload of its tag. *)

From Stdlib Require Import ZArith String List Bool Lia.
Import ListNotations.
Local Open Scope Z_scope.

Set Implicit Arguments.

(** ** JavaScript values and numbers *)

(** [Boolean(x)] for the values of a type: [false] on [0], the empty string,
    [false], [null], [undefined] and [NaN], [true] on every object. *)
Class Truthy (A : Type) : Type := truthy : A -> bool.

(** The integer-valued double nearest to an integer, ties to the even
    mantissa: what a JavaScript sum of integers is rounded to.  Magnitudes
    beyond the largest double, which JavaScript sends to [Infinity], are
    outside the embedding. *)
Definition roundDouble (x : Z) : Z :=
  let a := Z.abs x in
  if a <? 2 ^ 53 then x
  else
    let e := Z.log2 a - 52 in
    let q := Z.shiftr a e in
    let r := a - Z.shiftl q e in
    let half := 2 ^ (e - 1) in
    let q' := if (half <? r) || ((r =? half) && Z.odd q) then q + 1 else q in
    Z.sgn x * Z.shiftl q' e.

(** [a + b] on numbers that hold integers. *)
Definition jsAdd (a b : Z) : Z := roundDouble (a + b).

(** [Number.isSafeInteger] on an integer. *)
Definition isSafeInteger (i : Z) : bool :=
  (- (2 ^ 53) <? i) && (i <? 2 ^ 53).

(** ** JavaScript array helpers *)

Module Js.
Section Arrays.
Context {A : Type}.

(** [arr[i]] *)
Definition at_index (arr : list A) (i : Z) : option A :=
  if i <? 0 then None else nth_error arr (Z.to_nat i).

(** [arr[i]] read through a truthiness test, as in
    [const x = arr[i]; if (x) ...]: the element, unless the index is out of
    range or the element is falsy. *)
Definition at_truthy {truthyA : Truthy A} (arr : list A) (i : Z)
  : option A :=
  match at_index arr i with
  | Some x => if truthy x then Some x else None
  | None => None
  end.

(** [arr.length] *)
Definition len (arr : list A) : Z := Z.of_nat (length arr).

(** [arr.findIndex(p)]: the first position satisfying [p], or [-1]. *)
Fixpoint findIndex_from (p : A -> bool) (arr : list A) (i : Z) : Z :=
  match arr with
  | [] => -1
  | x :: rest => if p x then i else findIndex_from p rest (i + 1)
  end.

Definition findIndex (p : A -> bool) (arr : list A) : Z :=
  findIndex_from p arr 0.

(** [arr.some(p)] *)
Definition some (p : A -> bool) (arr : list A) : bool := existsb p arr.

(** [arr.slice(0, i)] and [arr.slice(i)] for [0 <= i]. *)
Definition slice_to (arr : list A) (i : Z) : list A := firstn (Z.to_nat i) arr.
Definition slice_from (arr : list A) (i : Z) : list A := skipn (Z.to_nat i) arr.

(** [arr.filter((x, index) => p(x, index))] *)
Fixpoint filter_indexed_from (p : A -> Z -> bool) (arr : list A) (i : Z)
  : list A :=
  match arr with
  | [] => []
  | x :: rest =>
      if p x i then x :: filter_indexed_from p rest (i + 1)
      else filter_indexed_from p rest (i + 1)
  end.

Definition filter_indexed (p : A -> Z -> bool) (arr : list A) : list A :=
  filter_indexed_from p arr 0.
End Arrays.
End Js.
Import Js.

(** ** utils.ts and non-empty.ts *)

(** [removeFirst]: drop the first element satisfying the predicate. *)
Definition removeFirst {A : Type} (predicate : A -> bool) (arr : list A)
  : list A :=
  let index := findIndex predicate arr in
  if index =? -1 then arr
  else slice_to arr index ++ slice_from arr (index + 1).

(** [circularIndex]: [((index % length) + length) % length], and [0] for an
    empty range. *)
Definition circularIndex (index length : Z) : Z :=
  if length =? 0 then 0
  else Z.rem (Z.rem index length + length) length.

(** Modelled from the spec: [clampIndex] of [utils.ts], which is not among
    the sources.  The spec has the chip focus move "clamped (not wrapped) to
    [0, len-1]". *)
Definition clampIndex (index length : Z) : Z :=
  Z.min (Z.max 0 index) (length - 1).

(** Modelled from the spec: [isNonEmpty] of [non-empty.ts], which is not
    among the sources.  The spec reads it as "[selectedItems] is non-empty". *)
Definition isNonEmpty {A : Type} (arr : list A) : bool :=
  match arr with
  | [] => false
  | _ :: _ => true
  end.

(** ** JavaScript string helpers *)

(** [s.toLowerCase()], on the ASCII letters. *)
Definition toLowerCase_ascii (c : Ascii.ascii) : Ascii.ascii :=
  let n := Ascii.nat_of_ascii c in
  if (65 <=? n)%nat && (n <=? 90)%nat then Ascii.ascii_of_nat (n + 32)
  else c.

Fixpoint toLowerCase (s : string) : string :=
  match s with
  | EmptyString => EmptyString
  | String c rest => String (toLowerCase_ascii c) (toLowerCase rest)
  end.

(** [s.includes(searchString)] *)
Definition includes (s searchString : string) : bool :=
  match String.index 0 searchString s with
  | Some _ => true
  | None => false
  end.

(** ** Data model *)

(** The result of [toItemId]: [string | number], compared with [===]. *)
Inductive ID : Type :=
| IdString (s : string)
| IdNumber (n : Z).

Definition ID_eqb (a b : ID) : bool :=
  match a, b with
  | IdString s, IdString t => String.eqb s t
  | IdNumber n, IdNumber m => n =? m
  | _, _ => false
  end.

Inductive SelectedItemListDirection : Type :=
| LeftToRight
| RightToLeft.

Inductive SelectMode : Type :=
| SingleSelect
| MultiSelect (selectedItemListDirection : SelectedItemListDirection).

Inductive InputMode : Type :=
| SelectOnly
| SearchMode (inputValue : string).

Inductive ModelState : Type :=
| Blurred
| FocusedClosed
| FocusedOpened
| FocusedOpenedHighlighted (highlightIndex : Z)
| SelectedItemHighlighted (focusedIndex : Z).

(** [Msg<TItem>["type"]] *)
Inductive MsgType : Type :=
| pressed_horizontal_arrow_key
| pressed_vertical_arrow_key
| pressed_backspace_key
| pressed_escape_key
| pressed_enter_key
| pressed_key
| pressed_item
| focused_input
| blurred_input
| inputted_value
| hovered_over_item
| pressed_input
| pressed_unselect_all_button
| pressed_unselect_button
| focused_selected_item
| blurred_selected_item
| set_all_items
| set_selected_items
| set_input_value
| set_highlight_index
| set_mode.

Definition MsgType_eqb (a b : MsgType) : bool :=
  match a, b with
  | pressed_horizontal_arrow_key, pressed_horizontal_arrow_key
  | pressed_vertical_arrow_key, pressed_vertical_arrow_key
  | pressed_backspace_key, pressed_backspace_key
  | pressed_escape_key, pressed_escape_key
  | pressed_enter_key, pressed_enter_key
  | pressed_key, pressed_key
  | pressed_item, pressed_item
  | focused_input, focused_input
  | blurred_input, blurred_input
  | inputted_value, inputted_value
  | hovered_over_item, hovered_over_item
  | pressed_input, pressed_input
  | pressed_unselect_all_button, pressed_unselect_all_button
  | pressed_unselect_button, pressed_unselect_button
  | focused_selected_item, focused_selected_item
  | blurred_selected_item, blurred_selected_item
  | set_all_items, set_all_items
  | set_selected_items, set_selected_items
  | set_input_value, set_input_value
  | set_highlight_index, set_highlight_index
  | set_mode, set_mode => true
  | _, _ => false
  end.

Inductive HorizontalKey : Type := arrow_left | arrow_right.
Inductive VerticalKey : Type := arrow_up | arrow_down.

Section Combobox.
Context {T : Type} {truthyT : Truthy T}.

Record Model : Type := mkModel {
  state : ModelState;
  allItems : list T;
  selectedItems : list T;
  skipOnce : list MsgType;
  selectMode : SelectMode;
  inputMode : InputMode
}.

Record Config : Type := mkConfig {
  toItemId : T -> ID;
  toItemInputValue : T -> string;
  deterministicFilter : Model -> list T;
  isEmptyItem : T -> bool;
  namespace : string
}.

Inductive Msg : Type :=
| PressedHorizontalArrowKey (key : HorizontalKey)
| PressedVerticalArrowKey (key : VerticalKey)
| PressedBackspaceKey
| PressedEscapeKey
| PressedEnterKey
| PressedKey (key : string)
| PressedItem (item : T)
| FocusedInput
| BlurredInput
| InputtedValue (inputValue : string)
| HoveredOverItem (index : Z)
| PressedInput
| PressedUnselectAllButton
| PressedUnselectButton (item : T)
| FocusedSelectedItem (item : T)
| BlurredSelectedItem (item : T)
| SetAllItems (items : list T)
| SetSelectedItems (items : list T)
| SetInputValue (inputValue : string)
| SetHighlightIndex (highlightIndex : Z)
| SetMode (mode : SelectMode).

(** [msg.type] *)
Definition msg_type (msg : Msg) : MsgType :=
  match msg with
  | PressedHorizontalArrowKey _ => pressed_horizontal_arrow_key
  | PressedVerticalArrowKey _ => pressed_vertical_arrow_key
  | PressedBackspaceKey => pressed_backspace_key
  | PressedEscapeKey => pressed_escape_key
  | PressedEnterKey => pressed_enter_key
  | PressedKey _ => pressed_key
  | PressedItem _ => pressed_item
  | FocusedInput => focused_input
  | BlurredInput => blurred_input
  | InputtedValue _ => inputted_value
  | HoveredOverItem _ => hovered_over_item
  | PressedInput => pressed_input
  | PressedUnselectAllButton => pressed_unselect_all_button
  | PressedUnselectButton _ => pressed_unselect_button
  | FocusedSelectedItem _ => focused_selected_item
  | BlurredSelectedItem _ => blurred_selected_item
  | SetAllItems _ => set_all_items
  | SetSelectedItems _ => set_selected_items
  | SetInputValue _ => set_input_value
  | SetHighlightIndex _ => set_highlight_index
  | SetMode _ => set_mode
  end.

Inductive Effect : Type :=
| ScrollItemIntoView (item : T)
| FocusSelectedItem (item : T)
| FocusInput.

(** Object spreads [{...model, field: value}]. *)
Definition with_state (model : Model) (s : ModelState) : Model :=
  mkModel s (allItems model) (selectedItems model) (skipOnce model)
    (selectMode model) (inputMode model).

Definition with_allItems (model : Model) (items : list T) : Model :=
  mkModel (state model) items (selectedItems model) (skipOnce model)
    (selectMode model) (inputMode model).

Definition with_selectedItems (model : Model) (items : list T) : Model :=
  mkModel (state model) (allItems model) items (skipOnce model)
    (selectMode model) (inputMode model).

Definition with_skipOnce (model : Model) (skips : list MsgType) : Model :=
  mkModel (state model) (allItems model) (selectedItems model) skips
    (selectMode model) (inputMode model).

Definition with_selectMode (model : Model) (mode : SelectMode) : Model :=
  mkModel (state model) (allItems model) (selectedItems model)
    (skipOnce model) mode (inputMode model).

Definition with_inputMode (model : Model) (mode : InputMode) : Model :=
  mkModel (state model) (allItems model) (selectedItems model)
    (skipOnce model) (selectMode model) mode.

(** [init]: absent [selectMode] and [inputMode] take their defaults. *)
Definition init (items : list T) (mode : option SelectMode)
    (input : option InputMode) : Model :=
  mkModel Blurred items [] []
    (match mode with Some sm => sm | None => SingleSelect end)
    (match input with Some im => im | None => SearchMode EmptyString end).

(** ** Selectors *)

Definition isSelected (model : Model) : bool :=
  isNonEmpty (selectedItems model).

Definition isOpened (model : Model) : bool :=
  match state model with
  | FocusedOpened | FocusedOpenedHighlighted _ => true
  | _ => false
  end.

Definition isClosed (model : Model) : bool := negb (isOpened model).

Definition isHighlighted (model : Model) : bool :=
  match state model with
  | FocusedOpenedHighlighted _ => true
  | _ => false
  end.

Definition isBlurred (model : Model) : bool :=
  match state model with
  | Blurred => true
  | _ => false
  end.

Definition isSelectedItemHighlighted (model : Model) : bool :=
  match state model with
  | SelectedItemHighlighted _ => true
  | _ => false
  end.

Definition isFocused (model : Model) : bool := negb (isBlurred model).

Definition toSearchValue (model : Model) : string :=
  match inputMode model with
  | SearchMode inputValue => inputValue
  | SelectOnly => EmptyString
  end.

(** [emptyItem ? config.toItemInputValue(emptyItem) : ""], where
    [emptyItem] is [model.allItems.find(config.isEmptyItem)]: the text of the
    first empty item, unless there is none or it is falsy. *)
Definition emptyItemInputValue (config : Config) (model : Model) : string :=
  match find (isEmptyItem config) (allItems model) with
  | Some emptyItem =>
      if truthy emptyItem then toItemInputValue config emptyItem
      else EmptyString
  | None => EmptyString
  end.

(** The tests [isSelected(model)] followed by [model.selectedItems[0]] are
    the [first :: _] branches; [isHighlighted(model)] followed by
    [model.highlightIndex] is the [FocusedOpenedHighlighted] branch, whose
    [if (!item)] is the [None] of [at_truthy]. *)
Definition modelToInputValue (config : Config) (model : Model) : string :=
  match inputMode model, selectMode model with
  | SelectOnly, MultiSelect _ => EmptyString
  | SelectOnly, SingleSelect =>
      match selectedItems model with
      | first :: _ => toItemInputValue config first
      | [] =>
          match state model with
          | FocusedOpenedHighlighted highlightIndex =>
              match at_truthy (allItems model) highlightIndex with
              | None => emptyItemInputValue config model
              | Some item => toItemInputValue config item
              end
          | _ => emptyItemInputValue config model
          end
      end
  | SearchMode _, SingleSelect =>
      match selectedItems model with
      | first :: _ => toItemInputValue config first
      | [] => EmptyString
      end
  | SearchMode _, MultiSelect _ => EmptyString
  end.

Definition toCurrentInputValue (config : Config) (model : Model) : string :=
  match inputMode model with
  | SelectOnly => modelToInputValue config model
  | SearchMode _ =>
      match state model with
      | Blurred => modelToInputValue config model
      | _ => toSearchValue model
      end
  end.

Definition toSelectedItem (model : Model) : option T :=
  match selectedItems model with
  | first :: _ => Some first
  | [] => None
  end.

Definition isItemSelected (config : Config) (model : Model) (item : T)
  : bool :=
  some (fun x => ID_eqb (toItemId config x) (toItemId config item))
    (selectedItems model).

Definition toVisibleItems (config : Config) (model : Model) : list T :=
  match inputMode model with
  | SelectOnly => allItems model
  | SearchMode _ => deterministicFilter config model
  end.

(** ** Config *)

(** [simpleFilter], the default [deterministicFilter]: the items whose text
    contains the current input text, case-insensitively. *)
Definition simpleFilter (config : Config) (model : Model) : list T :=
  filter
    (fun item =>
       includes (toLowerCase (toItemInputValue config item))
         (toLowerCase (toCurrentInputValue config model)))
    (allItems model).

(** [initConfig]: [isEmptyItem] defaults to always-false and [namespace] to
    ["combobox"]; a [deterministicFilter] passed in is overwritten by
    [simpleFilter]. *)
Definition initConfig (toId : T -> ID) (toInputValue : T -> string)
    (isEmpty : option (T -> bool)) (filterItems : option (Model -> list T))
    (name : option string) : Config :=
  let configFull :=
    mkConfig toId toInputValue (fun model => allItems model)
      (match isEmpty with Some f => f | None => fun _ => false end)
      (match name with Some n => n | None => "combobox"%string end) in
  mkConfig (toItemId configFull) (toItemInputValue configFull)
    (fun model => simpleFilter configFull model)
    (isEmptyItem configFull) (namespace configFull).

(** The position of the first visible item that is selected; [None] is
    the [null] of the source. *)
Definition toSelectedItemIndex (config : Config) (model : Model)
  : option Z :=
  let selectedIndex :=
    findIndex
      (fun item =>
         some (fun x => ID_eqb (toItemId config item) (toItemId config x))
           (selectedItems model))
      (toVisibleItems config model) in
  if selectedIndex =? -1 then None else Some selectedIndex.

(** ** Input value *)

Definition setInputValue (model : Model) (inputValue : string) : Model :=
  match inputMode model with
  | SearchMode _ => with_inputMode model (SearchMode inputValue)
  | SelectOnly => model
  end.

Definition clearInputValue (model : Model) : Model :=
  setInputValue model EmptyString.

Definition resetInputValue (config : Config) (model : Model) : Model :=
  setInputValue model (modelToInputValue config model).

(** ** Selection *)

Definition addSelected (mode : SelectMode) (item : T)
    (selected : list T) : list T :=
  match mode with
  | SingleSelect => [item]
  | MultiSelect _ =>
      let selectedItemsNew := selected ++ [item] in
      if isNonEmpty selectedItemsNew then selectedItemsNew else [item]
  end.

(** [selectedItems.filter((x) => toItemId(x) !== toItemId(item))] *)
Definition removeSelected (config : Config) (item : T) (selected : list T)
  : list T :=
  filter (fun x => negb (ID_eqb (toItemId config x) (toItemId config item)))
    selected.

Definition toggleSelected (config : Config) (model : Model) (item : T)
  : Model :=
  if negb (isSelected model) then model
  else
    match selectMode model with
    | SingleSelect =>
        let modelNew :=
          with_selectedItems (with_state model FocusedClosed)
            (addSelected (selectMode model) item (selectedItems model)) in
        setInputValue modelNew (modelToInputValue config modelNew)
    | MultiSelect _ =>
        if negb (isItemSelected config model item) then
          let modelNew :=
            with_selectedItems (with_state model FocusedClosed)
              (addSelected (selectMode model) item (selectedItems model)) in
          setInputValue modelNew (modelToInputValue config modelNew)
        else
          let removed := removeSelected config item (selectedItems model) in
          if isNonEmpty removed then
            setInputValue
              (with_selectedItems (with_state model FocusedClosed) removed)
              (modelToInputValue config model)
          else
            setInputValue (with_state model FocusedClosed)
              (modelToInputValue config model)
    end.

(** The test ["inputValue" in model] of the source looks for a top-level
    property that no [Model] carries (the text lives under [inputMode]), so
    it is [false] and the guard it heads never fires. *)
Definition has_own_inputValue (model : Model) : bool := false.

Definition updateKeyboardNavigationForSelections (model : Model)
    (msg : Msg) : Model :=
  if negb (isSelected model) then model
  else
    match msg with
    | PressedHorizontalArrowKey key =>
        match selectMode model with
        | SingleSelect => model
        | MultiSelect selectedItemListDirection =>
            if has_own_inputValue model
               && negb (String.eqb (toSearchValue model) EmptyString)
            then model
            else
              match selectedItemListDirection, key with
              | RightToLeft, arrow_left =>
                  with_state model (SelectedItemHighlighted 0)
              | LeftToRight, arrow_right =>
                  with_state model (SelectedItemHighlighted 0)
              | _, _ => model
              end
        end
    | _ => model
    end.

(** ** The phase x event table *)

(** [{...model, type: "selected-item-highlighted", focusedIndex:
    model.selectedItems.findIndex(...)}] *)
Definition focusSelectedItem (config : Config) (model : Model) (item : T)
  : Model :=
  with_state model
    (SelectedItemHighlighted
       (findIndex
          (fun x => ID_eqb (toItemId config x) (toItemId config item))
          (selectedItems model))).

(** [selectedItemIndex ? selectedItemIndex : 0] *)
Definition seedHighlightIndex (selectedItemIndex : option Z) : Z :=
  match selectedItemIndex with
  | Some i => if i =? 0 then 0 else i
  | None => 0
  end.

Definition vertical_delta (key : VerticalKey) : Z :=
  match key with
  | arrow_down => 1
  | arrow_up => -1
  end.

Definition updateModel (config : Config) (model : Model) (msg : Msg)
  : Model :=
  match state model with
  | Blurred =>
      match msg with
      | FocusedInput =>
          resetInputValue config (with_state model FocusedOpened)
      | PressedUnselectAllButton => with_state model Blurred
      | PressedUnselectButton item =>
          let removed := removeSelected config item (selectedItems model) in
          if isNonEmpty removed then with_selectedItems model removed
          else with_state model Blurred
      | FocusedSelectedItem item => focusSelectedItem config model item
      | _ => model
      end

  | FocusedClosed =>
      match msg with
      | PressedInput => with_state model FocusedOpened
      | BlurredInput => with_state model Blurred
      | InputtedValue inputValue =>
          match inputMode model with
          | SelectOnly =>
              resetInputValue config (with_state model FocusedOpened)
          | SearchMode _ =>
              if String.eqb inputValue EmptyString
                 && match selectMode model with
                    | SingleSelect => true
                    | MultiSelect _ => false
                    end
              then setInputValue (with_state model FocusedOpened) inputValue
              else setInputValue (with_state model FocusedOpened) inputValue
          end
      | PressedEnterKey =>
          resetInputValue config (with_state model FocusedOpened)
      | PressedVerticalArrowKey _ =>
          match selectMode model with
          | SingleSelect =>
              resetInputValue config (with_state model FocusedOpened)
          | MultiSelect _ =>
              let selectedItemIndex := toSelectedItemIndex config model in
              resetInputValue config
                (with_state model
                   (FocusedOpenedHighlighted
                      (seedHighlightIndex selectedItemIndex)))
          end
      | PressedHorizontalArrowKey _ =>
          updateKeyboardNavigationForSelections model msg
      | PressedUnselectButton item =>
          let removed := removeSelected config item (selectedItems model) in
          if isNonEmpty removed then with_selectedItems model removed
          else with_state model FocusedClosed
      | FocusedSelectedItem item => focusSelectedItem config model item
      | PressedBackspaceKey =>
          match inputMode model, selectMode model with
          | SelectOnly, SingleSelect =>
              with_selectedItems (with_state model FocusedOpened) []
          | SearchMode EmptyString, _ =>
              let removed := slice_from (selectedItems model) 1 in
              if isNonEmpty removed then with_selectedItems model removed
              else with_state model FocusedOpened
          | _, _ => model
          end
      | PressedUnselectAllButton => with_state model FocusedClosed
      | _ => model
      end

  | FocusedOpened =>
      match msg with
      | HoveredOverItem index =>
          with_state model (FocusedOpenedHighlighted index)
      | BlurredInput => with_state model Blurred
      | PressedInput => with_state model FocusedClosed
      | PressedItem pressedItem =>
          if isEmptyItem config pressedItem
          then with_state model FocusedClosed
          else toggleSelected config model pressedItem
      | InputtedValue inputValue =>
          match inputMode model with
          | SelectOnly =>
              resetInputValue config (with_state model FocusedOpened)
          | SearchMode _ =>
              if String.eqb inputValue EmptyString
                 && match selectMode model with
                    | SingleSelect => true
                    | MultiSelect _ => false
                    end
              then
                clearInputValue
                  (with_selectedItems (with_state model FocusedOpened) [])
              else setInputValue model inputValue
          end
      | PressedEnterKey =>
          resetInputValue config (with_state model FocusedClosed)
      | PressedVerticalArrowKey key =>
          let visible := toVisibleItems config model in
          let selectedIndex :=
            findIndex
              (fun item =>
                 some
                   (fun x =>
                      ID_eqb (toItemId config item) (toItemId config x))
                   (selectedItems model))
              visible in
          if selectedIndex =? -1
          then with_state model (FocusedOpenedHighlighted 0)
          else
            let delta := vertical_delta key in
            let highlightIndex :=
              circularIndex (jsAdd selectedIndex delta) (len visible) in
            with_state model (FocusedOpenedHighlighted highlightIndex)
      | PressedEscapeKey => with_state model FocusedClosed
      | PressedHorizontalArrowKey _ =>
          updateKeyboardNavigationForSelections model msg
      | PressedUnselectButton item =>
          let removed := removeSelected config item (selectedItems model) in
          if isNonEmpty removed then with_selectedItems model removed
          else with_state model FocusedOpened
      | PressedBackspaceKey =>
          match inputMode model, selectMode model with
          | SelectOnly, SingleSelect => with_selectedItems model []
          | _, _ =>
              if String.eqb (toSearchValue model) EmptyString
              then
                with_selectedItems model (slice_from (selectedItems model) 1)
              else model
          end
      | PressedUnselectAllButton => with_state model FocusedOpened
      | _ => model
      end

  | FocusedOpenedHighlighted highlightIndex =>
      match msg with
      | HoveredOverItem index =>
          with_state model (FocusedOpenedHighlighted index)
      | BlurredInput => with_state model Blurred
      | PressedItem pressedItem =>
          if isEmptyItem config pressedItem
          then with_state model FocusedClosed
          else
            match selectMode model with
            | SingleSelect =>
                let modelNew :=
                  with_selectedItems (with_state model FocusedClosed)
                    (addSelected (selectMode model) pressedItem
                       (selectedItems model)) in
                resetInputValue config modelNew
            | MultiSelect _ =>
                if negb (isItemSelected config model pressedItem) then
                  let modelNew :=
                    with_selectedItems (with_state model FocusedClosed)
                      (addSelected (selectMode model) pressedItem
                         (selectedItems model)) in
                  resetInputValue config modelNew
                else
                  let removed :=
                    removeSelected config pressedItem
                      (selectedItems model) in
                  if isNonEmpty removed
                  then
                    with_selectedItems (with_state model FocusedClosed)
                      removed
                  else with_state model FocusedClosed
            end
      | InputtedValue inputValue =>
          match inputMode model with
          | SelectOnly =>
              resetInputValue config (with_state model FocusedOpened)
          | SearchMode _ =>
              if String.eqb inputValue EmptyString
                 && match selectMode model with
                    | SingleSelect => true
                    | MultiSelect _ => false
                    end
              then
                clearInputValue
                  (with_selectedItems (with_state model FocusedOpened) [])
              else setInputValue model inputValue
          end
      | PressedVerticalArrowKey key =>
          let visible := toVisibleItems config model in
          let delta := vertical_delta key in
          let highlightIndexNew :=
            circularIndex (jsAdd highlightIndex delta) (len visible) in
          with_state model (FocusedOpenedHighlighted highlightIndexNew)
      | PressedHorizontalArrowKey _ =>
          updateKeyboardNavigationForSelections model msg
      | PressedEnterKey =>
          let visible := toVisibleItems config model in
          match at_truthy visible highlightIndex with
          | None => with_state model FocusedClosed
          | Some enteredItem =>
              if isEmptyItem config enteredItem
              then with_state model FocusedClosed
              else
                match selectMode model with
                | SingleSelect =>
                    let modelNew :=
                      with_state
                        (with_selectedItems model
                           (addSelected (selectMode model) enteredItem
                              (selectedItems model)))
                        FocusedClosed in
                    resetInputValue config modelNew
                | MultiSelect _ =>
                    if negb (isItemSelected config model enteredItem) then
                      clearInputValue
                        (with_state
                           (with_selectedItems model
                              (addSelected (selectMode model) enteredItem
                                 (selectedItems model)))
                           FocusedClosed)
                    else
                      let removed :=
                        removeSelected config enteredItem
                          (selectedItems model) in
                      if isNonEmpty removed
                      then
                        clearInputValue
                          (with_state (with_selectedItems model removed)
                             FocusedClosed)
                      else clearInputValue (with_state model FocusedClosed)
                end
          end
      | PressedEscapeKey => with_state model FocusedClosed
      | PressedUnselectButton item =>
          let removed := removeSelected config item (selectedItems model) in
          if isNonEmpty removed then with_selectedItems model removed
          else with_state model (FocusedOpenedHighlighted highlightIndex)
      | FocusedSelectedItem item => focusSelectedItem config model item
      | PressedBackspaceKey =>
          if String.eqb (toSearchValue model) EmptyString then
            let removed := slice_from (selectedItems model) 1 in
            if isNonEmpty removed then with_selectedItems model removed
            else with_state model FocusedOpened
          else model
      | PressedUnselectAllButton => with_state model FocusedOpened
      | _ => model
      end

  | SelectedItemHighlighted focusedIndex =>
      match msg with
      | PressedHorizontalArrowKey key =>
          match selectMode model with
          | SingleSelect =>
              clearInputValue (with_state model FocusedClosed)
          | MultiSelect selectedItemListDirection =>
              match focusedIndex =? 0, selectedItemListDirection, key with
              | true, RightToLeft, arrow_right
              | true, LeftToRight, arrow_left =>
                  clearInputValue (with_state model FocusedClosed)
              | _, _, _ =>
                  let delta :=
                    match selectedItemListDirection, key with
                    | RightToLeft, arrow_right => -1
                    | RightToLeft, arrow_left => 1
                    | LeftToRight, arrow_left => -1
                    | LeftToRight, arrow_right => 1
                    end in
                  let selectedItemHighlightIndexNew :=
                    clampIndex (jsAdd focusedIndex delta)
                      (len (selectedItems model)) in
                  with_state model
                    (SelectedItemHighlighted selectedItemHighlightIndexNew)
              end
          end
      | PressedVerticalArrowKey _ =>
          match selectMode model with
          | SingleSelect =>
              resetInputValue config (with_state model FocusedOpened)
          | MultiSelect _ =>
              let selectedItemIndex := toSelectedItemIndex config model in
              resetInputValue config
                (with_state model
                   (FocusedOpenedHighlighted
                      (seedHighlightIndex selectedItemIndex)))
          end
      | InputtedValue inputValue =>
          match inputMode model with
          | SelectOnly =>
              setInputValue (with_state model FocusedOpened)
                (modelToInputValue config model)
          | SearchMode _ =>
              if String.eqb (toSearchValue model) EmptyString
              then
                setInputValue
                  (with_state (with_selectedItems model []) FocusedOpened)
                  inputValue
              else setInputValue (with_state model FocusedOpened) inputValue
          end
      | PressedKey _
      | PressedEnterKey
      | PressedEscapeKey => clearInputValue (with_state model FocusedClosed)
      | PressedBackspaceKey =>
          let removedHighlightedIndex :=
            filter_indexed (fun _ index => negb (index =? focusedIndex))
              (selectedItems model) in
          clearInputValue
            (with_state (with_selectedItems model removedHighlightedIndex)
               FocusedClosed)
      | PressedUnselectButton item =>
          let removed := removeSelected config item (selectedItems model) in
          if isNonEmpty removed then
            let selectedItemHighlightIndex :=
              clampIndex focusedIndex (len removed) in
            with_state (with_selectedItems model removed)
              (SelectedItemHighlighted selectedItemHighlightIndex)
          else clearInputValue (with_state model FocusedClosed)
      | FocusedSelectedItem item => focusSelectedItem config model item
      | BlurredSelectedItem _ => model
      | FocusedInput => clearInputValue (with_state model FocusedOpened)
      | PressedUnselectAllButton =>
          clearInputValue (with_state model FocusedOpened)
      | _ => model
      end
  end.

(** ** The setter overlay *)

Definition updateSetters (model : Model) (msg : Msg) : Model :=
  match msg with
  | SetAllItems items => with_allItems model items
  | SetSelectedItems items =>
      if isSelected model then with_selectedItems model items
      else with_selectedItems (with_state model Blurred) items
  | SetInputValue inputValue =>
      match inputMode model with
      | SearchMode _ => with_inputMode model (SearchMode inputValue)
      | SelectOnly => model
      end
  | SetHighlightIndex highlightIndex =>
      match state model with
      | FocusedOpenedHighlighted _ =>
          with_state model (FocusedOpenedHighlighted highlightIndex)
      | _ => model
      end
  | SetMode mode => with_selectMode model mode
  | _ => model
  end.

(** ** Effects *)

Definition isScrollItemIntoView (effect : Effect) : bool :=
  match effect with
  | ScrollItemIntoView _ => true
  | _ => false
  end.

(** The six [output.effects.push] blocks of [update], in order; [prev] is
    the model [update] received and [next] the model after the table and
    the setters. *)
Definition toEffects (config : Config) (prev next : Model) (msg : Msg)
  : list Effect :=
  (if isClosed prev && isOpened next && isSelected next then
     match at_index (selectedItems next) 0 with
     | Some item => [ScrollItemIntoView item]
     | None => []
     end
   else [])
  ++ (if MsgType_eqb (msg_type msg) pressed_input then [FocusInput] else [])
  ++ (match state next with
      | FocusedOpenedHighlighted highlightIndex =>
          if MsgType_eqb (msg_type msg) pressed_vertical_arrow_key then
            match at_truthy (toVisibleItems config next) highlightIndex with
            | Some highlightedItem => [ScrollItemIntoView highlightedItem]
            | None => []
            end
          else []
      | _ => []
      end)
  ++ (match state next with
      | SelectedItemHighlighted focusedIndex =>
          match at_truthy (selectedItems next) focusedIndex with
          | Some selectedHighlightedItem =>
              [FocusSelectedItem selectedHighlightedItem]
          | None => []
          end
      | _ => []
      end)
  ++ (if isSelectedItemHighlighted prev
         && negb (isSelectedItemHighlighted next)
      then [FocusInput] else [])
  ++ (if MsgType_eqb (msg_type msg) pressed_unselect_all_button
      then [FocusInput] else []).

(** ** Suppression scheduling *)

(** The four edge-case blocks that close [update]; each one reads the
    model the previous one left. *)
Definition scheduleSkips (prev next : Model) (effects : list Effect)
  : Model :=
  let out1 :=
    if isClosed prev && isOpened next && some isScrollItemIntoView effects
    then with_skipOnce next [hovered_over_item; hovered_over_item]
    else next in
  let out2 :=
    if isClosed prev && isOpened out1
    then with_skipOnce out1 (skipOnce out1 ++ [hovered_over_item])
    else out1 in
  let out3 :=
    if some isScrollItemIntoView effects
    then with_skipOnce out2 [hovered_over_item]
    else out2 in
  if (isBlurred prev || isSelectedItemHighlighted prev) && isFocused out3
  then with_skipOnce out3 (skipOnce out3 ++ [pressed_input])
  else out3.

(** ** update *)

(** [model.skipOnce.includes(msg.type)] *)
Definition isSkipped (model : Model) (msg : Msg) : bool :=
  some (MsgType_eqb (msg_type msg)) (skipOnce model).

(** The path of [update] past the [skipOnce] test. *)
Definition updateUnskipped (config : Config) (model : Model) (msg : Msg)
  : Model * list Effect :=
  let next := updateSetters (updateModel config model msg) msg in
  let effects := toEffects config model next msg in
  (scheduleSkips model next effects, effects).

Definition update (config : Config) (model : Model) (msg : Msg)
  : Model * list Effect :=
  if isSkipped model msg then
    (with_skipOnce model
       (removeFirst (fun m => MsgType_eqb m (msg_type msg))
          (skipOnce model)),
     [])
  else updateUnskipped config model msg.

(** ** Running a sequence of events *)

(** The caller's loop: each event is dispatched on the model the previous
    [update] returned; the effects are handed to the host and forgotten. *)
Fixpoint dispatchAll (config : Config) (model : Model) (msgs : list Msg)
  : Model :=
  match msgs with
  | [] => model
  | msg :: rest => dispatchAll config (fst (update config model msg)) rest
  end.

(** The models a caller can hold: [init] with any arguments, then any
    number of [update] calls, each with an event that [allowed] admits on
    the model it is dispatched on. *)
Inductive reachableVia (config : Config) (allowed : Model -> Msg -> Prop)
  : Model -> Prop :=
| reachable_init items mode input :
    reachableVia config allowed (init items mode input)
| reachable_update model msg :
    reachableVia config allowed model ->
    allowed model msg ->
    reachableVia config allowed (fst (update config model msg)).

(** Every sequence of events. *)
Definition reachable (config : Config) : Model -> Prop :=
  reachableVia config (fun _ _ => True).

End Combobox.

Arguments Model : clear implicits.
Arguments Config : clear implicits.
Arguments Msg : clear implicits.
Arguments Effect : clear implicits.

(** ** A concrete instance: the fruit list of the README *)

Module Fruits.
Record Item : Type := mkItem { id : Z; label : string }.

(** An item is an object: every item is truthy. *)
#[global] Instance Item_truthy : Truthy Item := fun _ => true.

Definition pear : Item := mkItem 0 "pear".
Definition apple : Item := mkItem 1 "apple".
Definition banana : Item := mkItem 2 "banana".

Definition fruits : list Item := [pear; apple; banana].

(** [initConfig({ toItemId: (item) => item.id,
                   toItemInputValue: (item) => item.label })] *)
Definition config : Config Item :=
  initConfig (fun item => IdNumber (id item)) label None None None.

(** [init({ allItems: fruits })] *)
Definition initial : Model Item := init fruits None None.

(** Scenario 1: the model after [focused-input]. *)
Definition focused : Model Item := fst (update config initial FocusedInput).

(** A focused, closed, single-select model with [apple] selected. *)
Definition appleSelected : Model Item :=
  mkModel FocusedClosed fruits [apple] [] SingleSelect (SearchMode "apple").

(** An open dropdown whose first item is highlighted. *)
Definition pearHighlighted : Model Item :=
  mkModel (FocusedOpenedHighlighted 0) fruits [] [] SingleSelect
    (SearchMode "").

(** A focused, closed, multi-select model with [banana] selected. *)
Definition bananaChosen : Model Item :=
  mkModel FocusedClosed fruits [banana] [] (MultiSelect LeftToRight)
    (SearchMode "").

(** A multi-select model whose chip for [pear] has the focus. *)
Definition chipFocused : Model Item :=
  mkModel (SelectedItemHighlighted 0) fruits [pear; apple] []
    (MultiSelect LeftToRight) (SearchMode "").
End Fruits.

(** ** More selectors of [src/combobox.ts] *)

Section ItemSelectors.
Context {T : Type} {truthyT : Truthy T}.

(** [toHighlightedItem]: [item ?? null] is [None] outside the highlighted
    phase and outside the visible items. *)
Definition toHighlightedItem (config : Config T) (model : Model T)
  : option T :=
  match state model with
  | FocusedOpenedHighlighted highlightIndex =>
      at_index (toVisibleItems config model) highlightIndex
  | _ => None
  end.

(** [Boolean(highlightedItem && toItemId(highlightedItem) === toItemId(item))] *)
Definition isItemHighlighted (config : Config T) (model : Model T) (item : T)
  : bool :=
  match toHighlightedItem config model with
  | Some highlightedItem =>
      truthy highlightedItem
      && ID_eqb (toItemId config highlightedItem) (toItemId config item)
  | None => false
  end.

Definition toSelections (model : Model T) : list T := selectedItems model.

Definition isItemIndexHighlighted (model : Model T) (index : Z) : bool :=
  match state model with
  | FocusedOpenedHighlighted highlightIndex => highlightIndex =? index
  | _ => false
  end.

Definition isItemSelectedAndHighlighted (config : Config T) (model : Model T)
    (item : T) : bool :=
  isItemSelected config model item && isItemHighlighted config model item.

(** [isSelectedItemHighlighted(model) &&
     model.selectedItems.findIndex(...) === model.focusedIndex] *)
Definition isSelectedItemFocused (config : Config T) (model : Model T)
    (selectedItem : T) : bool :=
  match state model with
  | SelectedItemHighlighted focusedIndex =>
      findIndex
        (fun item =>
           ID_eqb (toItemId config item) (toItemId config selectedItem))
        (selectedItems model)
      =? focusedIndex
  | _ => false
  end.

Inductive ItemStatus : Type :=
| selected_and_highlighted
| selected
| highlighted
| unselected.

Definition toItemStatus (config : Config T) (model : Model T) (item : T)
  : ItemStatus :=
  if isItemSelectedAndHighlighted config model item
  then selected_and_highlighted
  else if isItemSelected config model item then selected
  else if isItemHighlighted config model item then highlighted
  else unselected.

Definition toSelectedItemDirection (model : Model T)
  : option SelectedItemListDirection :=
  match selectMode model with
  | MultiSelect selectedItemListDirection => Some selectedItemListDirection
  | SingleSelect => None
  end.
End ItemSelectors.

(** ** Helpers of [src/combobox.ts] *)

(** The white space that [trim] removes, among the ASCII characters: space,
    tab, line feed, vertical tab, form feed, carriage return. *)
Definition isWhiteSpace (c : Ascii.ascii) : bool :=
  let n := Ascii.nat_of_ascii c in
  (n =? 32)%nat || ((9 <=? n)%nat && (n <=? 13)%nat).

Fixpoint trimStart (s : string) : string :=
  match s with
  | EmptyString => EmptyString
  | String c rest => if isWhiteSpace c then trimStart rest else s
  end.

Fixpoint trimEnd (s : string) : string :=
  match s with
  | EmptyString => EmptyString
  | String c rest =>
      match trimEnd rest with
      | EmptyString =>
          if isWhiteSpace c then EmptyString else String c EmptyString
      | kept => String c kept
      end
  end.

(** [s.trim()] *)
Definition trim (s : string) : string := trimEnd (trimStart s).

(** The local [eq] of [keyToMsg]:
    [a.toLowerCase().trim() === b.toLowerCase().trim()]. *)
Definition keyEq (a b : string) : bool :=
  String.eqb (trim (toLowerCase a)) (trim (toLowerCase b)).

(** [keyToMsg]: the message for a [KeyboardEvent.key], paired with its
    [shouldPreventDefault] flag; an absent flag is [false], as the callers
    read it. *)
Definition keyToMsg {T : Type} (key : string) : Msg T * bool :=
  if keyEq key "Backspace" then (PressedBackspaceKey, false)
  else if keyEq key "ArrowLeft"
  then (PressedHorizontalArrowKey arrow_left, false)
  else if keyEq key "ArrowRight"
  then (PressedHorizontalArrowKey arrow_right, false)
  else if keyEq key "ArrowDown" then (PressedVerticalArrowKey arrow_down, true)
  else if keyEq key "ArrowUp" then (PressedVerticalArrowKey arrow_up, true)
  else if keyEq key "Escape" then (PressedEscapeKey, false)
  else if keyEq key "Enter" then (PressedEnterKey, true)
  else (PressedKey key, false).

(** ** More concrete models *)

Module Basket.
Import Fruits.

(** An open dropdown, nothing highlighted, nothing selected, no suppression
    pending. *)
Definition opened : Model Item :=
  mkModel FocusedOpened fruits [] [] SingleSelect (SearchMode "").

(** A multi-select dropdown open on its second item, with [pear] and
    [apple] selected. *)
Definition multiHighlighted : Model Item :=
  mkModel (FocusedOpenedHighlighted 1) fruits [pear; apple] []
    (MultiSelect LeftToRight) (SearchMode "").

(** A focused, closed model with text in the search box. *)
Definition typing : Model Item :=
  mkModel FocusedClosed fruits [] [] SingleSelect (SearchMode "an").

(** A highlight index past the end of the visible items. *)
Definition strayHighlight : Model Item :=
  mkModel (FocusedOpenedHighlighted 7) fruits [apple] [] SingleSelect
    (SearchMode "").

(** An open dropdown on its first item, with a suppression queued for the
    arrow keys. *)
Definition arrowQueued : Model Item :=
  mkModel (FocusedOpenedHighlighted 0) fruits []
    [pressed_vertical_arrow_key] SingleSelect (SearchMode "").

(** A highlight index at [2^53], where the doubles stop holding every
    integer. *)
Definition farHighlight : Model Item :=
  mkModel (FocusedOpenedHighlighted (2 ^ 53)) fruits [] [] SingleSelect
    (SearchMode "").
End Basket.

(** ** Items that are numbers *)

Module Numbers.
(** A number is truthy unless it is [0]. *)
#[global] Instance Z_truthy : Truthy Z := fun n => negb (n =? 0).

Definition numbers : list Z := [0; 1; 2].

(** [initConfig({ toItemId: (n) => n, toItemInputValue: (n) => String(n) })],
    with the texts of the three numbers at hand. *)
Definition config : Config Z :=
  initConfig IdNumber
    (fun n =>
       if n =? 0 then "0"%string
       else if n =? 1 then "1"%string else "2"%string)
    None None None.

(** An open dropdown whose highlighted item is the number [0]. *)
Definition zeroHighlighted : Model Z :=
  mkModel (FocusedOpenedHighlighted 0) numbers [] [] SingleSelect
    (SearchMode "").

(** A multi-select model with the chip of the number [0] under the focus. *)
Definition zeroChip : Model Z :=
  mkModel (SelectedItemHighlighted 0) numbers [0; 1] []
    (MultiSelect LeftToRight) (SearchMode "").
End Numbers.

(** ** Vocabulary of the properties *)

(** The [set-*] events, which [updateSetters] serves. *)
Definition isSetter (t : MsgType) : bool :=
  match t with
  | set_all_items | set_selected_items | set_input_value
  | set_highlight_index | set_mode => true
  | _ => false
  end.

(** The [case] labels of [updateModel]: [hasCase phase t] holds when the
    [switch (msg.type)] under [case phase] has a label for [t]; every other
    event type falls to [default: return model]. *)
Definition hasCase (phase : ModelState) (t : MsgType) : bool :=
  match phase with
  | Blurred =>
      match t with
      | focused_input | pressed_unselect_all_button | pressed_unselect_button
      | focused_selected_item => true
      | _ => false
      end
  | FocusedClosed =>
      match t with
      | pressed_input | blurred_input | inputted_value | pressed_enter_key
      | pressed_vertical_arrow_key | pressed_horizontal_arrow_key
      | pressed_unselect_button | focused_selected_item
      | pressed_backspace_key | pressed_unselect_all_button => true
      | _ => false
      end
  | FocusedOpened =>
      match t with
      | hovered_over_item | blurred_input | pressed_input | pressed_item
      | inputted_value | pressed_enter_key | pressed_vertical_arrow_key
      | pressed_escape_key | pressed_horizontal_arrow_key
      | pressed_unselect_button | pressed_backspace_key
      | pressed_unselect_all_button => true
      | _ => false
      end
  | FocusedOpenedHighlighted _ =>
      match t with
      | hovered_over_item | blurred_input | pressed_item | inputted_value
      | pressed_vertical_arrow_key | pressed_horizontal_arrow_key
      | pressed_enter_key | pressed_escape_key | pressed_unselect_button
      | focused_selected_item | pressed_backspace_key
      | pressed_unselect_all_button => true
      | _ => false
      end
  | SelectedItemHighlighted _ =>
      match t with
      | pressed_horizontal_arrow_key | pressed_vertical_arrow_key
      | inputted_value | pressed_key | pressed_enter_key | pressed_escape_key
      | pressed_backspace_key | pressed_unselect_button
      | focused_selected_item | blurred_selected_item | focused_input
      | pressed_unselect_all_button => true
      | _ => false
      end
  end.

(** The two event types that the suppression rules ever queue. *)
Definition queueable (t : MsgType) : Prop :=
  t = hovered_over_item \/ t = pressed_input.

(** How many times an event type is queued in a [skipOnce] list. *)
Definition occurrences (t : MsgType) (skips : list MsgType) : nat :=
  length (filter (MsgType_eqb t) skips).

Section Vocabulary.
Context {T : Type} {truthyT : Truthy T}.

(** Two models that differ at most in their phase and their [skipOnce]. *)
Definition sameData (model model' : Model T) : Prop :=
  allItems model' = allItems model /\
  selectedItems model' = selectedItems model /\
  selectMode model' = selectMode model /\
  inputMode model' = inputMode model.


(** Single-select holds at most one selected item. *)
Definition cardinalityOk (model : Model T) : Prop :=
  selectMode model = SingleSelect -> len (selectedItems model) <= 1.

(** The setter events that cannot break [cardinalityOk]: a
    [set-selected-items] that brings at most one item to a single-select
    model, a [set-mode] to single-select that finds at most one selected
    item; every other event. *)
Definition keepsCardinality (model : Model T) (msg : Msg T) : Prop :=
  match msg with
  | SetSelectedItems items =>
      selectMode model = SingleSelect -> len items <= 1
  | SetMode SingleSelect => len (selectedItems model) <= 1
  | _ => True
  end.

(** The chip focus points into [selectedItems]. *)
Definition chipFocusOk (model : Model T) : Prop :=
  forall focusedIndex,
    state model = SelectedItemHighlighted focusedIndex ->
    0 <= focusedIndex < len (selectedItems model).

(** The events that cannot break [chipFocusOk]: a [focused-selected-item]
    for an item that is selected, a [set-selected-items] that, while a chip
    has the focus, leaves an item under the focused index; every other
    event. *)
Definition keepsChipFocus (config : Config T) (model : Model T)
    (msg : Msg T) : Prop :=
  match msg with
  | FocusedSelectedItem item => isItemSelected config model item = true
  | SetSelectedItems items =>
      match state model with
      | SelectedItemHighlighted focusedIndex => focusedIndex < len items
      | _ => True
      end
  | _ => True
  end.
End Vocabulary.

(** ** Vocabulary of the further properties *)

(** The events that can add an item to [selectedItems]. *)
Definition addsSelection (t : MsgType) : bool :=
  match t with
  | pressed_item | pressed_enter_key | set_selected_items => true
  | _ => false
  end.

(** Two input modes of the same kind: both select-only or both search-mode. *)
Definition sameInputKind (before after : InputMode) : Prop :=
  match before, after with
  | SelectOnly, SelectOnly => True
  | SearchMode _, SearchMode _ => True
  | _, _ => False
  end.

(** The three phases in which the input has the focus and no chip has it. *)
Definition inputFocused (phase : ModelState) : bool :=
  match phase with
  | FocusedClosed | FocusedOpened | FocusedOpenedHighlighted _ => true
  | _ => false
  end.

(** The message types that [keyToMsg] can return. *)
Definition isKeyboard (t : MsgType) : bool :=
  match t with
  | pressed_backspace_key | pressed_horizontal_arrow_key
  | pressed_vertical_arrow_key | pressed_escape_key | pressed_enter_key
  | pressed_key => true
  | _ => false
  end.

(** The item that an effect names, if it names one. *)
Definition effectItem {T : Type} (effect : Effect T) : option T :=
  match effect with
  | ScrollItemIntoView item => Some item
  | FocusSelectedItem item => Some item
  | FocusInput => None
  end.

(** * Properties *)

Unset Implicit Arguments.

(** ** Arrays *)

Section ArrayFacts.
Context {A : Type}.
Implicit Types (p : A -> bool) (arr : list A).

Lemma len_nonneg arr : 0 <= len arr.
Proof. unfold len. lia. Qed.

Lemma len_cons (x : A) arr : len (x :: arr) = len arr + 1.
Proof. unfold len. cbn [length]. lia. Qed.

Lemma len_app arr1 arr2 : len (arr1 ++ arr2) = len arr1 + len arr2.
Proof. unfold len. rewrite length_app. lia. Qed.

(** [findIndex] either misses every element or stops at the first hit. *)
Lemma findIndex_from_split p arr i :
  (findIndex_from p arr i = -1 /\ some p arr = false) \/
  (exists before x after,
      arr = before ++ x :: after /\ p x = true /\
      some p before = false /\
      findIndex_from p arr i = i + len before).
Proof.
  unfold some. revert i. induction arr as [|y rest IH]; intros i; cbn.
  - left. split; reflexivity.
  - destruct (p y) eqn:Hy.
    + right. exists [], y, rest. cbn. repeat split; trivial. unfold len; cbn; lia.
    + destruct (IH (i + 1)) as [[Hm Hs]|(before & x & after & -> & Hx & Hb & Hi)].
      * left. split; trivial.
      * right. exists (y :: before), x, after. cbn. rewrite Hy, Hb.
        repeat split; trivial. rewrite Hi. unfold len; cbn [length]. lia.
Qed.

Lemma findIndex_found p arr :
  some p arr = true -> 0 <= findIndex p arr < len arr.
Proof.
  intros Hs. unfold findIndex.
  destruct (findIndex_from_split p arr 0)
    as [[_ Hn]|(before & x & after & -> & _ & _ & ->)].
  - congruence.
  - rewrite len_app, len_cons. pose proof (len_nonneg before).
    pose proof (len_nonneg after). lia.
Qed.

Lemma slice_to_app before arr : slice_to (before ++ arr) (len before) = before.
Proof.
  unfold slice_to, len. rewrite Nat2Z.id, firstn_app, Nat.sub_diag, firstn_all.
  cbn. apply app_nil_r.
Qed.

Lemma slice_from_app before (x : A) after :
  slice_from (before ++ x :: after) (len before + 1) = after.
Proof.
  unfold slice_from, len.
  replace (Z.to_nat (Z.of_nat (length before) + 1)) with (length before + 1)%nat by lia.
  rewrite skipn_app.
  rewrite skipn_all2 by lia.
  replace (length before + 1 - length before)%nat with 1%nat by lia.
  reflexivity.
Qed.

(** [removeFirst] takes out the first hit and nothing else. *)
Lemma removeFirst_split p arr :
  some p arr = true ->
  exists before x after,
    arr = before ++ x :: after /\ p x = true /\ some p before = false /\
    removeFirst p arr = before ++ after.
Proof.
  intros Hs. unfold removeFirst, findIndex.
  destruct (findIndex_from_split p arr 0)
    as [[_ Hn]|(before & x & after & -> & Hx & Hb & ->)]; [congruence|].
  exists before, x, after. repeat split; trivial.
  pose proof (len_nonneg before).
  destruct (0 + len before =? -1) eqn:E; [lia|].
  rewrite Z.add_0_l, slice_to_app, slice_from_app. reflexivity.
Qed.

Lemma some_false_not_In p arr x : some p arr = false -> In x arr -> p x = false.
Proof.
  unfold some. intros Hs Hin. destruct (p x) eqn:E; trivial.
  assert (existsb p arr = true) by (apply existsb_exists; eauto). congruence.
Qed.
End ArrayFacts.

Lemma MsgType_eqb_eq a b : MsgType_eqb a b = true <-> a = b.
Proof. destruct a, b; cbn; split; intros H; try reflexivity; discriminate H. Qed.

Lemma MsgType_eqb_refl a : MsgType_eqb a a = true.
Proof. destruct a; reflexivity. Qed.

(** ** [circularIndex] is the mathematical residue *)

Lemma circularIndex_mod index length :
  0 < length -> circularIndex index length = index mod length.
Proof.
  intros Hl. unfold circularIndex.
  destruct (length =? 0) eqn:E; [lia|].
  assert (Hr : - length < Z.rem index length < length).
  { destruct (Z_le_gt_dec 0 index).
    - pose proof (Z.rem_bound_pos_pos index length); lia.
    - pose proof (Z.rem_bound_pos_neg index length); lia. }
  rewrite Z.rem_mod_nonneg by lia.
  rewrite Z.add_mod, Z.mod_same, Z.add_0_r, Z.mod_mod by lia.
  rewrite (Z.quot_rem' index length) at 2.
  rewrite Z.add_comm, Z.mul_comm, Z.mod_add by lia. reflexivity.
Qed.

(** ** Frames: what each stage of [update] leaves alone *)

Ltac break_match :=
  match goal with
  | |- context [match ?x with _ => _ end] => destruct x eqn:?
  end.

Ltac unfold_table :=
  unfold updateModel, toggleSelected, updateKeyboardNavigationForSelections,
    focusSelectedItem, resetInputValue, clearInputValue, setInputValue,
    has_own_inputValue, isSelected,
    with_state, with_selectedItems, with_inputMode; cbn.

(** Case analysis over the whole phase x event table. *)
Ltac by_table model :=
  let st := fresh "st" in
  destruct model as [st ? ? ? ? ?];
  match goal with msg : Msg _ |- _ => destruct st, msg end;
  unfold_table; repeat break_match.

Section Frames.
Context {T : Type} {truthyT : Truthy T}.
Implicit Types (config : Config T) (model prev next : Model T) (msg : Msg T).

Lemma updateModel_allItems config model msg :
  allItems (updateModel config model msg) = allItems model.
Proof. by_table model; reflexivity. Qed.

Lemma updateModel_skipOnce config model msg :
  skipOnce (updateModel config model msg) = skipOnce model.
Proof. by_table model; reflexivity. Qed.

Lemma updateModel_selectMode config model msg :
  selectMode (updateModel config model msg) = selectMode model.
Proof. by_table model; reflexivity. Qed.

(** No phase has a case for a setter event. *)
Lemma updateModel_setter config model msg :
  isSetter (msg_type msg) = true -> updateModel config model msg = model.
Proof.
  intros Hs. destruct model as [st ? ? ? ? ?].
  destruct st, msg; try discriminate Hs; reflexivity.
Qed.

(** The suppression rules write [skipOnce] and nothing else. *)
Lemma scheduleSkips_frame prev next (effects : list (Effect T)) :
  scheduleSkips prev next effects =
  with_skipOnce next (skipOnce (scheduleSkips prev next effects)).
Proof.
  destruct next as [st ? ? ? ? ?]. unfold scheduleSkips, with_skipOnce.
  repeat break_match; reflexivity.
Qed.

Lemma scheduleSkips_state prev next (effects : list (Effect T)) :
  state (scheduleSkips prev next effects) = state next.
Proof. rewrite scheduleSkips_frame. reflexivity. Qed.

Lemma scheduleSkips_allItems prev next (effects : list (Effect T)) :
  allItems (scheduleSkips prev next effects) = allItems next.
Proof. rewrite scheduleSkips_frame. reflexivity. Qed.

Lemma scheduleSkips_selectedItems prev next (effects : list (Effect T)) :
  selectedItems (scheduleSkips prev next effects) = selectedItems next.
Proof. rewrite scheduleSkips_frame. reflexivity. Qed.

Lemma scheduleSkips_selectMode prev next (effects : list (Effect T)) :
  selectMode (scheduleSkips prev next effects) = selectMode next.
Proof. rewrite scheduleSkips_frame. reflexivity. Qed.

Lemma scheduleSkips_inputMode prev next (effects : list (Effect T)) :
  inputMode (scheduleSkips prev next effects) = inputMode next.
Proof. rewrite scheduleSkips_frame. reflexivity. Qed.

(** The two paths of [update]. *)
Lemma update_skipped config model msg :
  isSkipped model msg = true ->
  update config model msg =
  (with_skipOnce model
     (removeFirst (fun m => MsgType_eqb m (msg_type msg)) (skipOnce model)),
   []).
Proof. intros H. unfold update. rewrite H. reflexivity. Qed.

Lemma update_unskipped config model msg :
  isSkipped model msg = false ->
  update config model msg = updateUnskipped config model msg.
Proof. intros H. unfold update. rewrite H. reflexivity. Qed.
End Frames.

(** ** What [skipOnce] can hold *)

Section SkipOnceContents.
Context {T : Type} {truthyT : Truthy T}.
Implicit Types (config : Config T) (model prev next : Model T) (msg : Msg T).

Lemma updateSetters_skipOnce model msg :
  skipOnce (updateSetters model msg) = skipOnce model.
Proof.
  destruct model as [st ? ? ? ? ?].
  destruct msg; cbn; unfold isSelected; repeat break_match; reflexivity.
Qed.

Lemma scheduleSkips_queueable prev next (effects : list (Effect T)) :
  Forall queueable (skipOnce next) ->
  Forall queueable (skipOnce (scheduleSkips prev next effects)).
Proof.
  intros Hnext. destruct next as [st ? ? sk ? ?]. cbn in Hnext.
  unfold scheduleSkips, with_skipOnce.
  repeat break_match; cbn;
    repeat (apply Forall_app; split); trivial;
    repeat (apply Forall_cons || apply Forall_nil); unfold queueable; auto.
Qed.

Lemma update_queueable config model msg :
  Forall queueable (skipOnce model) ->
  Forall queueable (skipOnce (fst (update config model msg))).
Proof.
  intros Hq. unfold update. destruct (isSkipped model msg) eqn:Hs.
  - cbn. unfold isSkipped in Hs.
    assert (Hsome :
              some (fun m => MsgType_eqb m (msg_type msg)) (skipOnce model)
              = true).
    { unfold some in *. apply existsb_exists in Hs.
      destruct Hs as (t & Hin & Ht). apply existsb_exists. exists t.
      split; trivial. apply MsgType_eqb_eq in Ht. subst t.
      apply MsgType_eqb_refl. }
    destruct (removeFirst_split _ _ Hsome)
      as (before & t & after & Hsplit & _ & _ & ->).
    rewrite Hsplit in Hq. apply Forall_app in Hq. destruct Hq as [Hb Ha].
    apply Forall_app. split; trivial. inversion Ha; assumption.
  - unfold updateUnskipped. cbn [fst]. apply scheduleSkips_queueable.
    rewrite updateSetters_skipOnce, updateModel_skipOnce. exact Hq.
Qed.

(** Whatever the events, a model that comes from [init] and [update] queues
    hover and press suppressions only; no other event is ever swallowed on
    it. *)
Lemma reachable_queueable config allowed model :
  reachableVia config allowed model -> Forall queueable (skipOnce model).
Proof.
  induction 1 as [items mode input|model msg _ IH _].
  - constructor.
  - apply update_queueable. exact IH.
Qed.

Lemma reachable_not_skipped config allowed model msg :
  reachableVia config allowed model ->
  msg_type msg <> hovered_over_item ->
  msg_type msg <> pressed_input ->
  isSkipped model msg = false.
Proof.
  intros Hreach Hh Hp. pose proof (reachable_queueable _ _ _ Hreach) as Hq.
  unfold isSkipped, some. destruct (existsb _ _) eqn:E; trivial.
  apply existsb_exists in E. destruct E as (t & Hin & Ht).
  apply MsgType_eqb_eq in Ht. rewrite Forall_forall in Hq.
  destruct (Hq t Hin); congruence.
Qed.
End SkipOnceContents.


(** ** The candidate pool *)

Section AllItems.
Context {T : Type} {truthyT : Truthy T}.
Implicit Types (config : Config T) (model : Model T) (msg : Msg T).

Lemma updateSetters_allItems model msg :
  MsgType_eqb (msg_type msg) set_all_items = false ->
  allItems (updateSetters model msg) = allItems model.
Proof.
  intros Hm. destruct model as [st ? ? ? ? ?].
  destruct msg; try discriminate Hm; cbn; unfold isSelected;
    repeat break_match; reflexivity.
Qed.

(** C10.  Whatever the model and the event, as long as the event is not
    [set-all-items], the model that [update] returns has the [allItems] of
    the model it was given: only that setter changes the candidate pool. *)
Theorem update_keeps_allItems config model msg :
  MsgType_eqb (msg_type msg) set_all_items = false ->
  allItems (fst (update config model msg)) = allItems model.
Proof.
  intros Hm. unfold update. destruct (isSkipped model msg).
  - reflexivity.
  - unfold updateUnskipped. cbn [fst].
    rewrite scheduleSkips_allItems, updateSetters_allItems by exact Hm.
    apply updateModel_allItems.
Qed.
End AllItems.

Lemma update_keeps_allItems_witness :
  MsgType_eqb (msg_type (PressedUnselectButton Fruits.apple)) set_all_items
  = false /\
  allItems
    (fst (update Fruits.config Fruits.appleSelected
            (PressedUnselectButton Fruits.apple)))
  = Fruits.fruits.
Proof.
  split; [reflexivity|].
  apply (update_keeps_allItems Fruits.config Fruits.appleSelected
           (PressedUnselectButton Fruits.apple)).
  reflexivity.
Defined.

(** ** Suppression *)

Section SkipOnce.
Context {T : Type} {truthyT : Truthy T}.
Implicit Types (config : Config T) (model : Model T) (msg : Msg T).

Lemma isSkipped_In model msg :
  isSkipped model msg = true <-> In (msg_type msg) (skipOnce model).
Proof.
  unfold isSkipped, some. rewrite existsb_exists. split.
  - intros (t & Hin & Heq). apply MsgType_eqb_eq in Heq. congruence.
  - intros Hin. exists (msg_type msg). split; trivial.
    apply MsgType_eqb_refl.
Qed.

(** C5.  An event whose type is queued in [skipOnce] is swallowed before
    anything else is looked at: [update] returns no effect and the model
    it was given with one field changed, [skipOnce], which loses the first
    occurrence of the type and nothing else.  Once no occurrence is left,
    the next event of that type takes the ordinary path. *)
Theorem update_skips_once config model msg :
  isSkipped model msg = true ->
  exists before after,
    skipOnce model = before ++ msg_type msg :: after /\
    ~ In (msg_type msg) before /\
    update config model msg = (with_skipOnce model (before ++ after), []) /\
    forall msg',
      msg_type msg' = msg_type msg ->
      ~ In (msg_type msg) after ->
      update config (with_skipOnce model (before ++ after)) msg' =
      updateUnskipped config (with_skipOnce model (before ++ after)) msg'.
Proof.
  intros Hs. rewrite (update_skipped config model msg Hs).
  assert (Hsome :
            some (fun m => MsgType_eqb m (msg_type msg)) (skipOnce model)
            = true).
  { apply isSkipped_In in Hs. unfold some. apply existsb_exists.
    exists (msg_type msg). split; trivial. apply MsgType_eqb_refl. }
  destruct (removeFirst_split _ _ Hsome)
    as (before & t & after & Hsplit & Ht & Hbefore & Hremoved).
  apply MsgType_eqb_eq in Ht. subst t.
  assert (Hnot : ~ In (msg_type msg) before).
  { intros Hin.
    pose proof (some_false_not_In _ _ _ Hbefore Hin) as Hf.
    cbv beta in Hf. rewrite MsgType_eqb_refl in Hf. discriminate Hf. }
  exists before, after. rewrite Hremoved. repeat split; trivial.
  intros msg' Hty Hafter. apply update_unskipped.
  destruct (isSkipped (with_skipOnce model (before ++ after)) msg') eqn:E;
    trivial.
  apply isSkipped_In in E. cbn in E. rewrite Hty in E.
  apply in_app_or in E. tauto.
Qed.

(** C6.  When the effects that [update] returns hold a
    [scroll-item-into-view], the [skipOnce] of the returned model holds
    [hovered-over-item] exactly once: the rule for "a scroll effect was
    emitted" runs after the rules for "the dropdown just opened" and
    overwrites what they queued; only a [pressed-input] may follow it. *)
Theorem scroll_queues_one_hover config model msg :
  some isScrollItemIntoView (snd (update config model msg)) = true ->
  occurrences hovered_over_item (skipOnce (fst (update config model msg)))
  = 1%nat /\
  (skipOnce (fst (update config model msg)) = [hovered_over_item] \/
   skipOnce (fst (update config model msg))
   = [hovered_over_item; pressed_input]).
Proof.
  unfold update. destruct (isSkipped model msg); [discriminate|].
  unfold updateUnskipped. cbn [fst snd]. intros Hscroll.
  unfold scheduleSkips. rewrite Hscroll.
  repeat break_match; cbn; auto.
Qed.
End SkipOnce.

Lemma update_skips_once_witness :
  isSkipped Fruits.focused (HoveredOverItem 1) = true /\
  exists before after,
    skipOnce Fruits.focused = before ++ hovered_over_item :: after /\
    ~ In hovered_over_item before /\
    update Fruits.config Fruits.focused (HoveredOverItem 1)
    = (with_skipOnce Fruits.focused (before ++ after), []) /\
    forall msg',
      msg_type msg' = hovered_over_item ->
      ~ In hovered_over_item after ->
      update Fruits.config (with_skipOnce Fruits.focused (before ++ after))
        msg' =
      updateUnskipped Fruits.config
        (with_skipOnce Fruits.focused (before ++ after)) msg'.
Proof.
  split; [reflexivity|].
  apply (update_skips_once Fruits.config Fruits.focused (HoveredOverItem 1)).
  reflexivity.
Defined.

Lemma scroll_queues_one_hover_witness :
  some isScrollItemIntoView
    (snd (update Fruits.config Fruits.appleSelected PressedInput)) = true /\
  occurrences hovered_over_item
    (skipOnce (fst (update Fruits.config Fruits.appleSelected PressedInput)))
  = 1%nat.
Proof.
  split; [reflexivity|].
  apply (scroll_queues_one_hover Fruits.config Fruits.appleSelected
           PressedInput).
  reflexivity.
Defined.


(** ** Keyboard navigation of the item list *)

Section VerticalArrow.
Context {T : Type} {truthyT : Truthy T}.
Implicit Types (config : Config T) (model : Model T) (msg : Msg T).

Lemma sameData_refl model : sameData model model.
Proof. repeat split. Qed.

Lemma sameData_trans model1 model2 model3 :
  sameData model1 model2 -> sameData model2 model3 ->
  sameData model1 model3.
Proof. unfold sameData. intuition congruence. Qed.

(** Within the safe integers a JavaScript sum is exact. *)
Lemma roundDouble_exact (x : Z) :
  - (2 ^ 53) <= x <= 2 ^ 53 -> roundDouble x = x.
Proof.
  intros Hx. unfold roundDouble.
  destruct (Z.abs x <? 2 ^ 53) eqn:E; [reflexivity|].
  apply Z.ltb_ge in E.
  assert (Hcase : x = 2 ^ 53 \/ x = - (2 ^ 53)) by lia.
  destruct Hcase as [->| ->]; vm_compute; reflexivity.
Qed.

Lemma jsAdd_safe (i : Z) :
  isSafeInteger i = true -> jsAdd i 1 = i + 1 /\ jsAdd i (-1) = i - 1.
Proof.
  unfold isSafeInteger, jsAdd. intros Hsafe.
  apply andb_true_iff in Hsafe. destruct Hsafe as [Hlo Hhi].
  apply Z.ltb_lt in Hlo. apply Z.ltb_lt in Hhi.
  split; rewrite roundDouble_exact; lia.
Qed.

(** One arrow press in the highlighted phase: the phase payload moves and
    [skipOnce] is either kept or reset to one hover suppression. *)
Lemma vertical_in_highlighted config model i key :
  state model = FocusedOpenedHighlighted i ->
  isSkipped model (PressedVerticalArrowKey key) = false ->
  exists skips,
    fst (update config model (PressedVerticalArrowKey key)) =
    with_skipOnce
      (with_state model
         (FocusedOpenedHighlighted
            (circularIndex (jsAdd i (vertical_delta key))
               (len (toVisibleItems config model)))))
      skips /\
    (skips = skipOnce model \/ skips = [hovered_over_item]).
Proof.
  intros Hst Hskip. rewrite (update_unskipped config model _ Hskip).
  destruct model as [st all sel sk sm im]. cbn in Hst. subst st.
  unfold updateUnskipped, updateModel. cbn [state fst updateSetters].
  rewrite scheduleSkips_frame.
  unfold scheduleSkips, toEffects, with_state, with_skipOnce,
    isClosed, isOpened, isBlurred, isSelectedItemHighlighted, isFocused.
  cbn. repeat break_match; cbn; eauto.
Qed.

(** The model after one press keeps the data, the phase and the freedom
    from arrow suppressions that the iteration needs. *)
Lemma vertical_step_invariant config model i key :
  state model = FocusedOpenedHighlighted i ->
  (forall key', isSkipped model (PressedVerticalArrowKey key') = false) ->
  sameData model (fst (update config model (PressedVerticalArrowKey key))) /\
  (forall key',
      isSkipped (fst (update config model (PressedVerticalArrowKey key)))
        (PressedVerticalArrowKey key') = false).
Proof.
  intros Hst Hskip.
  destruct (vertical_in_highlighted config model i key Hst (Hskip key))
    as (skips & -> & Hskips).
  split; [repeat split|].
  intros key'. specialize (Hskip key'). unfold isSkipped in *.
  cbn [skipOnce with_skipOnce msg_type] in *.
  destruct Hskips as [->| ->]; [exact Hskip|reflexivity].
Qed.

Lemma downs_from config n :
  0 < n < 2 ^ 53 ->
  forall (k : nat) model i,
    (forall model', sameData model model' -> isHighlighted model' = true ->
                    len (toVisibleItems config model') = n) ->
    (forall key, isSkipped model (PressedVerticalArrowKey key) = false) ->
    state model = FocusedOpenedHighlighted i ->
    0 <= i < n ->
    state
      (dispatchAll config model
         (repeat (PressedVerticalArrowKey arrow_down) k))
    = FocusedOpenedHighlighted ((i + Z.of_nat k) mod n).
Proof.
  intros Hn. induction k as [|k IH]; intros model i Hvis Hskip Hst Hi.
  - cbn. rewrite Z.add_0_r, Z.mod_small by lia. exact Hst.
  - cbn [repeat dispatchAll].
    destruct (vertical_step_invariant config model i arrow_down Hst Hskip)
      as [Hsame Hskip'].
    assert (Hnext :
              state (fst (update config model
                            (PressedVerticalArrowKey arrow_down)))
              = FocusedOpenedHighlighted ((i + 1) mod n)).
    { destruct (vertical_in_highlighted config model i arrow_down Hst
                  (Hskip arrow_down)) as (skips & -> & _).
      cbn [state with_skipOnce with_state vertical_delta].
      rewrite (Hvis model (sameData_refl model))
        by (unfold isHighlighted; rewrite Hst; reflexivity).
      destruct (jsAdd_safe i) as [-> _].
      - unfold isSafeInteger. apply andb_true_iff.
        split; apply Z.ltb_lt; lia.
      - rewrite circularIndex_mod by lia. reflexivity. }
    rewrite (IH _ ((i + 1) mod n)).
    + f_equal. rewrite Zplus_mod_idemp_l. f_equal. lia.
    + intros model' Hsame'. apply Hvis.
      eapply sameData_trans; [exact Hsame|exact Hsame'].
    + exact Hskip'.
    + exact Hnext.
    + apply Z.mod_pos_bound. lia.
Qed.

Lemma downs_when_empty config :
  forall (k : nat) model,
    (forall model', sameData model model' -> isHighlighted model' = true ->
                    len (toVisibleItems config model') = 0) ->
    (forall key, isSkipped model (PressedVerticalArrowKey key) = false) ->
    state model = FocusedOpenedHighlighted 0 ->
    state
      (dispatchAll config model
         (repeat (PressedVerticalArrowKey arrow_down) k))
    = FocusedOpenedHighlighted 0.
Proof.
  induction k as [|k IH]; intros model Hvis Hskip Hst; [exact Hst|].
  cbn [repeat dispatchAll].
  destruct (vertical_step_invariant config model 0 arrow_down Hst Hskip)
    as [Hsame Hskip'].
  apply IH.
  - intros model' Hsame'. apply Hvis.
    eapply sameData_trans; [exact Hsame|exact Hsame'].
  - exact Hskip'.
  - destruct (vertical_in_highlighted config model 0 arrow_down Hst
                (Hskip arrow_down)) as (skips & -> & _).
    cbn [state with_skipOnce with_state].
    rewrite (Hvis model (sameData_refl model))
      by (unfold isHighlighted; rewrite Hst; reflexivity).
    reflexivity.
Qed.

(** C7, amended.  Take a model in the highlighted phase whose
    [highlightIndex] [i] is a safe integer and whose [skipOnce] holds no
    [pressed-vertical-arrow-key], and let [n] be the number of visible
    items, the same for every highlight index and suppression queue.
    Arrow-down moves the highlight to [circularIndex (i + 1) n] and arrow-up
    to [circularIndex (i - 1) n], where [circularIndex j n], the source's
    [((j % n) + n) % n], is [0] when [n = 0] and else the residue of [j] in
    [0 .. n-1].  So from index [0] the highlight after [k] presses of
    arrow-down is [k mod n] (and [0] when [n = 0]): [n] presses come back to
    [0]; and for [n > 0] one press of arrow-up from [0] lands on [n - 1]. *)
Theorem highlight_wraps_around config model i n :
  state model = FocusedOpenedHighlighted i ->
  isSafeInteger i = true ->
  n < 2 ^ 53 ->
  (forall model', sameData model model' -> isHighlighted model' = true ->
                  len (toVisibleItems config model') = n) ->
  (forall key, isSkipped model (PressedVerticalArrowKey key) = false) ->
  state (fst (update config model (PressedVerticalArrowKey arrow_down)))
  = FocusedOpenedHighlighted (circularIndex (i + 1) n) /\
  state (fst (update config model (PressedVerticalArrowKey arrow_up)))
  = FocusedOpenedHighlighted (circularIndex (i - 1) n) /\
  (forall j, circularIndex j n = if n =? 0 then 0 else j mod n) /\
  (i = 0 ->
   forall k : nat,
     state
       (dispatchAll config model
          (repeat (PressedVerticalArrowKey arrow_down) k))
     = FocusedOpenedHighlighted (if n =? 0 then 0 else Z.of_nat k mod n)) /\
  (i = 0 ->
   state
     (dispatchAll config model
        (repeat (PressedVerticalArrowKey arrow_down) (Z.to_nat n)))
   = FocusedOpenedHighlighted 0) /\
  (i = 0 ->
   0 < n ->
   state (fst (update config model (PressedVerticalArrowKey arrow_up)))
   = FocusedOpenedHighlighted (n - 1)).
Proof.
  intros Hst Hsafe Hbound Hvis Hskip.
  assert (Hhl : isHighlighted model = true).
  { unfold isHighlighted. rewrite Hst. reflexivity. }
  assert (Hlen : len (toVisibleItems config model) = n).
  { apply Hvis; [apply sameData_refl|exact Hhl]. }
  assert (Hn : 0 <= n).
  { rewrite <- Hlen. apply len_nonneg. }
  destruct (jsAdd_safe i Hsafe) as [Hplus Hminus].
  assert (Hdown :
            state (fst (update config model
                          (PressedVerticalArrowKey arrow_down)))
            = FocusedOpenedHighlighted (circularIndex (i + 1) n)).
  { destruct (vertical_in_highlighted config model i arrow_down Hst
                (Hskip arrow_down)) as (skips & -> & _).
    cbn [state with_skipOnce with_state vertical_delta].
    rewrite Hlen, Hplus. reflexivity. }
  assert (Hup :
            state (fst (update config model
                          (PressedVerticalArrowKey arrow_up)))
            = FocusedOpenedHighlighted (circularIndex (i - 1) n)).
  { destruct (vertical_in_highlighted config model i arrow_up Hst
                (Hskip arrow_up)) as (skips & -> & _).
    cbn [state with_skipOnce with_state vertical_delta].
    rewrite Hlen, Hminus. reflexivity. }
  assert (Hcirc : forall j, circularIndex j n = if n =? 0 then 0 else j mod n).
  { intros j. destruct (n =? 0) eqn:E.
    - unfold circularIndex. rewrite E. reflexivity.
    - apply circularIndex_mod. lia. }
  assert (Hdowns :
            i = 0 ->
            forall k : nat,
              state
                (dispatchAll config model
                   (repeat (PressedVerticalArrowKey arrow_down) k))
              = FocusedOpenedHighlighted
                  (if n =? 0 then 0 else Z.of_nat k mod n)).
  { intros -> k. destruct (n =? 0) eqn:E.
    - apply Z.eqb_eq in E. rewrite E in Hvis.
      apply downs_when_empty; assumption.
    - apply Z.eqb_neq in E.
      rewrite (downs_from config n) with (i := 0); trivial; lia. }
  repeat split; trivial.
  - intros Hzero. rewrite (Hdowns Hzero (Z.to_nat n)).
    destruct (n =? 0) eqn:E; [reflexivity|]. apply Z.eqb_neq in E.
    rewrite Z2Nat.id, Z.mod_same by lia. reflexivity.
  - intros -> Hpos. rewrite Hup, Hcirc.
    destruct (n =? 0) eqn:E; [lia|]. f_equal.
    rewrite <- (Z.mod_add _ 1 n), Z.mod_small; lia.
Qed.

End VerticalArrow.


Lemma highlight_wraps_around_witness :
  state
    (fst (update Fruits.config Fruits.pearHighlighted
            (PressedVerticalArrowKey arrow_down)))
  = FocusedOpenedHighlighted 1 /\
  state
    (dispatchAll Fruits.config Fruits.pearHighlighted
       (repeat (PressedVerticalArrowKey arrow_down) 2))
  = FocusedOpenedHighlighted 2 /\
  state
    (dispatchAll Fruits.config Fruits.pearHighlighted
       (repeat (PressedVerticalArrowKey arrow_down) 3))
  = FocusedOpenedHighlighted 0 /\
  state
    (fst (update Fruits.config Fruits.pearHighlighted
            (PressedVerticalArrowKey arrow_up)))
  = FocusedOpenedHighlighted 2.
Proof.
  assert (Hvis : forall model',
             sameData Fruits.pearHighlighted model' ->
             isHighlighted model' = true ->
             len (toVisibleItems Fruits.config model') = 3).
  { intros [st all sel sk sm im] (Hall & _ & _ & Hinput) Hhl.
    cbn in Hall, Hinput. subst all im. unfold isHighlighted in Hhl.
    destruct st; try discriminate Hhl. reflexivity. }
  assert (Hskip : forall key,
             isSkipped Fruits.pearHighlighted (PressedVerticalArrowKey key)
             = false).
  { intros key. reflexivity. }
  assert (Hbound : 3 < 2 ^ 53) by (vm_compute; reflexivity).
  destruct (highlight_wraps_around Fruits.config Fruits.pearHighlighted 0 3
              eq_refl eq_refl Hbound Hvis Hskip)
    as (Hdown & _ & _ & Hdowns & Hturn & Hup).
  split; [exact Hdown|].
  split; [exact (Hdowns eq_refl 2%nat)|].
  split; [apply Hturn; reflexivity | apply Hup; [reflexivity | lia]].
Defined.

(** C7 as stated fails on two kinds of model in the highlighted phase.
    When [pressed-vertical-arrow-key] is queued in [skipOnce] the press is
    swallowed and the highlight stays at [0], where the wraparound of
    [0 + 1] over three visible items is [1].  And at the highlight index
    [2^53], which a [hovered-over-item] event sets, the sum [2^53 + 1] is rounded back to [2^53], so arrow-down lands
    on the residue of [2^53], which is [2], not on that of [2^53 + 1], which
    is [0]. *)
Lemma highlight_wraps_around_counterexample :
  (state Basket.arrowQueued = FocusedOpenedHighlighted 0 /\
   len (toVisibleItems Fruits.config Basket.arrowQueued) = 3 /\
   state
     (fst (update Fruits.config Basket.arrowQueued
             (PressedVerticalArrowKey arrow_down)))
   = FocusedOpenedHighlighted 0 /\
   circularIndex (0 + 1) 3 = 1) /\
  (fst (update Fruits.config Basket.opened (HoveredOverItem (2 ^ 53)))
   = Basket.farHighlight /\
   state Basket.farHighlight = FocusedOpenedHighlighted (2 ^ 53) /\
   isSkipped Basket.farHighlight (PressedVerticalArrowKey arrow_down)
   = false /\
   len (toVisibleItems Fruits.config Basket.farHighlight) = 3 /\
   state
     (fst (update Fruits.config Basket.farHighlight
             (PressedVerticalArrowKey arrow_down)))
   = FocusedOpenedHighlighted 2 /\
   circularIndex (2 ^ 53 + 1) 3 = 0).
Proof. repeat split; vm_compute; reflexivity. Qed.




(** ** Events without a case in the current phase *)

Section Unhandled.
Context {T : Type} {truthyT : Truthy T}.
Implicit Types (config : Config T) (model : Model T) (msg : Msg T).

Lemma updateSetters_other model msg :
  isSetter (msg_type msg) = false -> updateSetters model msg = model.
Proof. intros Hs. destruct msg; try discriminate Hs; reflexivity. Qed.

(** C4, amended.  Outside the phase [selected-item-highlighted], an event
    that is not a setter, whose type is not queued in [skipOnce] and has no
    case in the current phase's table, leaves the model as it is:
    [update] returns the very model it was given.  The effect list is
    empty, unless the event is [pressed-input], which always requests
    [focus-input]. *)
Theorem unhandled_event_keeps_model config model msg :
  isSkipped model msg = false ->
  isSetter (msg_type msg) = false ->
  hasCase (state model) (msg_type msg) = false ->
  isSelectedItemHighlighted model = false ->
  update config model msg =
  (model,
   if MsgType_eqb (msg_type msg) pressed_input then [FocusInput] else []).
Proof.
  intros Hskip Hset Hcase Hchip.
  rewrite (update_unskipped config model msg Hskip).
  unfold updateUnskipped. rewrite (updateSetters_other _ _ Hset).
  destruct model as [st all sel sk sm im].
  unfold isSelectedItemHighlighted in Hchip. cbn in Hcase, Hchip.
  destruct st, msg; try discriminate Hcase; try discriminate Hchip;
    try discriminate Hset; reflexivity.
Qed.
End Unhandled.

Lemma unhandled_event_keeps_model_witness :
  isSkipped Fruits.initial (@PressedEnterKey Fruits.Item) = false /\
  hasCase (state Fruits.initial) pressed_enter_key = false /\
  update Fruits.config Fruits.initial PressedEnterKey = (Fruits.initial, []).
Proof.
  split; [reflexivity|]. split; [reflexivity|].
  apply (unhandled_event_keeps_model Fruits.config Fruits.initial
           PressedEnterKey); reflexivity.
Defined.

(** C4 as stated fails.  [pressed-input] has no case in phase [blurred], yet
    it requests [focus-input].  In phase [selected-item-highlighted] an event
    with no case ([pressed-item]), and likewise [blurred-selected-item], whose
    case returns the model, come back with [pressed-input] queued in
    [skipOnce] and with a [focus-selected-item] effect.  A setter has no case
    in any phase and still takes effect.  And an event with no case in the
    phase is swallowed when its type is queued: after [focused-input] and
    [blurred-input] the model is [blurred] with a hover suppression pending,
    and [hovered-over-item] consumes it. *)
Lemma unhandled_event_counterexample :
  (hasCase (state Fruits.initial) pressed_input = false /\
   update Fruits.config Fruits.initial PressedInput
   = (Fruits.initial, [FocusInput])) /\
  (hasCase (state Fruits.chipFocused) pressed_item = false /\
   update Fruits.config Fruits.chipFocused (PressedItem Fruits.banana)
   = (with_skipOnce Fruits.chipFocused [pressed_input],
      [FocusSelectedItem Fruits.pear])) /\
  (update Fruits.config Fruits.chipFocused (BlurredSelectedItem Fruits.pear)
   = (with_skipOnce Fruits.chipFocused [pressed_input],
      [FocusSelectedItem Fruits.pear]) /\
   update Fruits.config Fruits.chipFocused (BlurredSelectedItem Fruits.pear)
   <> (Fruits.chipFocused, [])) /\
  (hasCase (state Fruits.initial) set_all_items = false /\
   allItems (fst (update Fruits.config Fruits.initial (SetAllItems [])))
   <> allItems Fruits.initial) /\
  (hasCase
     (state (dispatchAll Fruits.config Fruits.initial
               [FocusedInput; BlurredInput]))
     hovered_over_item = false /\
   skipOnce
     (dispatchAll Fruits.config Fruits.initial [FocusedInput; BlurredInput])
   = [hovered_over_item; pressed_input] /\
   skipOnce
     (dispatchAll Fruits.config Fruits.initial
        [FocusedInput; BlurredInput; HoveredOverItem 0])
   = [pressed_input]).
Proof.
  repeat split; try reflexivity;
    vm_compute; intros H; discriminate H.
Qed.

(** ** Selection cardinality *)

Section Cardinality.
Context {T : Type} {truthyT : Truthy T}.
Implicit Types (config : Config T) (model : Model T) (msg : Msg T).

Lemma updateModel_cardinality config model msg :
  cardinalityOk model -> cardinalityOk (updateModel config model msg).
Proof.
  unfold cardinalityOk. intros Hok Hsingle.
  rewrite updateModel_selectMode in Hsingle. specialize (Hok Hsingle).
  destruct model as [st all sel sk sm im]. cbn in Hsingle, Hok. subst sm.
  destruct sel as [|x [|y rest]];
    [| | unfold len in Hok; cbn [length] in Hok; lia];
    destruct st, msg; unfold_table; repeat break_match; cbn;
    unfold len; change (Pos.to_nat 1) with 1%nat; cbn; lia.
Qed.

Lemma update_cardinality config model msg :
  cardinalityOk model -> keepsCardinality model msg ->
  cardinalityOk (fst (update config model msg)).
Proof.
  intros Hok Hkeeps. unfold update. destruct (isSkipped model msg).
  - exact Hok.
  - unfold updateUnskipped. cbn [fst]. unfold cardinalityOk.
    rewrite scheduleSkips_selectMode, scheduleSkips_selectedItems.
    destruct (isSetter (msg_type msg)) eqn:Hset.
    + rewrite (updateModel_setter config model msg Hset).
      destruct model as [st all sel sk sm im]. unfold cardinalityOk in Hok.
      destruct msg; try discriminate Hset; cbn in *;
        unfold isSelected; repeat break_match; cbn; auto;
        intros; subst; try discriminate; auto.
    + rewrite (updateSetters_other _ _ Hset).
      apply updateModel_cardinality. exact Hok.
Qed.

(** C2, amended.  Take a model reached from [init] by [update] calls in
    which every [set-selected-items] dispatched on a single-select model
    brings at most one item, and every [set-mode] to single-select is
    dispatched on a model with at most one selected item.  If its
    [selectMode] is single-select, its [selectedItems] has length at most
    one. *)
Theorem single_select_cardinality config model :
  reachableVia config keepsCardinality model ->
  selectMode model = SingleSelect ->
  len (selectedItems model) <= 1.
Proof.
  intros Hreach. change (cardinalityOk model).
  induction Hreach as [items mode input|model msg _ IH Hkeeps].
  - intros _. cbn. lia.
  - apply update_cardinality; assumption.
Qed.
End Cardinality.

Lemma single_select_cardinality_witness :
  selectMode
    (fst (update Fruits.config
            (fst (update Fruits.config Fruits.initial
                    (SetSelectedItems [Fruits.apple])))
            FocusedInput))
  = SingleSelect /\
  len
    (selectedItems
       (fst (update Fruits.config
               (fst (update Fruits.config Fruits.initial
                       (SetSelectedItems [Fruits.apple])))
               FocusedInput)))
  <= 1.
Proof.
  split; [reflexivity|].
  apply (single_select_cardinality Fruits.config); [|reflexivity].
  apply reachable_update; [|exact I].
  apply reachable_update; [|intros _; unfold len; cbn; lia].
  apply reachable_init.
Defined.

(** C2 as stated fails: the setters are applied as they come.
    [set-selected-items] with two items on the initial single-select model,
    and [set-mode] to single-select on a multi-select model holding two
    items, both produce a single-select model with two selected items. *)
Lemma single_select_cardinality_counterexample :
  (reachable Fruits.config
     (fst (update Fruits.config Fruits.initial
             (SetSelectedItems [Fruits.pear; Fruits.apple]))) /\
   selectMode
     (fst (update Fruits.config Fruits.initial
             (SetSelectedItems [Fruits.pear; Fruits.apple])))
   = SingleSelect /\
   len
     (selectedItems
        (fst (update Fruits.config Fruits.initial
                (SetSelectedItems [Fruits.pear; Fruits.apple]))))
   = 2) /\
  (selectMode
     (fst (update Fruits.config Fruits.chipFocused (SetMode SingleSelect)))
   = SingleSelect /\
   len
     (selectedItems
        (fst (update Fruits.config Fruits.chipFocused
                (SetMode SingleSelect))))
   = 2).
Proof.
  repeat split.
  apply reachable_update; [|exact I]. apply reachable_init.
Qed.


(** ** Chip focus *)

Section ChipFocus.
Context {T : Type} {truthyT : Truthy T}.
Implicit Types (config : Config T) (model : Model T) (msg : Msg T).

Lemma isNonEmpty_len {A : Type} (arr : list A) :
  isNonEmpty arr = true -> 1 <= len arr.
Proof.
  destruct arr; [discriminate|]. intros _. rewrite len_cons.
  pose proof (len_nonneg arr). lia.
Qed.

Lemma clampIndex_bounds index length :
  1 <= length -> 0 <= clampIndex index length < length.
Proof. unfold clampIndex. lia. Qed.

Lemma updateModel_chipFocus config model msg :
  chipFocusOk model -> keepsChipFocus config model msg ->
  chipFocusOk (updateModel config model msg).
Proof.
  unfold chipFocusOk, keepsChipFocus, isItemSelected.
  intros Hok Hkeeps.
  destruct model as [st all sel sk sm im]. cbn [state selectedItems] in *.
  destruct st, msg; unfold_table; repeat break_match; cbn;
    intros chip Hindex; try discriminate Hindex;
    try (injection Hindex as <-);
    try (apply Hok; reflexivity);
    try (apply findIndex_found; exact Hkeeps);
    try (apply clampIndex_bounds; apply isNonEmpty_len; assumption);
    try (apply clampIndex_bounds; specialize (Hok _ eq_refl); lia);
    match goal with
    | H : negb (isNonEmpty _) = false |- _ =>
        apply negb_false_iff, isNonEmpty_len in H; lia
    end.
Qed.

Lemma update_chipFocus config model msg :
  chipFocusOk model -> keepsChipFocus config model msg ->
  chipFocusOk (fst (update config model msg)).
Proof.
  intros Hok Hkeeps. unfold update. destruct (isSkipped model msg).
  - exact Hok.
  - unfold updateUnskipped. cbn [fst]. unfold chipFocusOk.
    rewrite scheduleSkips_state, scheduleSkips_selectedItems.
    destruct (isSetter (msg_type msg)) eqn:Hset.
    + rewrite (updateModel_setter config model msg Hset).
      destruct model as [st all sel sk sm im].
      unfold chipFocusOk in Hok. cbn [state selectedItems] in Hok.
      destruct msg; try discriminate Hset; cbn in *;
        unfold isSelected; repeat break_match; cbn;
        intros chip Hchip; try discriminate Hchip;
        try (apply Hok; assumption).
      subst st. specialize (Hok chip eq_refl). lia.
    + rewrite (updateSetters_other _ _ Hset).
      apply updateModel_chipFocus; assumption.
Qed.
End ChipFocus.

Section ChipFocusInvariant.
Context {T : Type} {truthyT : Truthy T}.
Implicit Types (config : Config T) (model : Model T) (msg : Msg T).

(** C9, amended.  Take a model reached from [init] by [update] calls in
    which every [focused-selected-item] names an item that is selected in
    the model it is dispatched on, and every [set-selected-items]
    dispatched while a chip has the focus brings more items than the
    focused index.  If its phase is [selected-item-highlighted], its
    [focusedIndex] is an index of [selectedItems]:
    [0 <= focusedIndex < selectedItems.length]. *)
Theorem chip_focus_in_range config model focusedIndex :
  reachableVia config (keepsChipFocus config) model ->
  state model = SelectedItemHighlighted focusedIndex ->
  0 <= focusedIndex < len (selectedItems model).
Proof.
  intros Hreach. revert focusedIndex. change (chipFocusOk model).
  induction Hreach as [items mode input|model msg _ IH Hkeeps].
  - intros chip Hchip. discriminate Hchip.
  - apply update_chipFocus; assumption.
Qed.
End ChipFocusInvariant.

Lemma chip_focus_in_range_witness :
  (state
     (fst (update Fruits.config
             (fst (update Fruits.config Fruits.initial
                     (SetSelectedItems [Fruits.pear; Fruits.apple])))
             (FocusedSelectedItem Fruits.apple)))
   = SelectedItemHighlighted 1) /\
  (0 <= 1 <
   len
     (selectedItems
        (fst (update Fruits.config
                (fst (update Fruits.config Fruits.initial
                        (SetSelectedItems [Fruits.pear; Fruits.apple])))
                (FocusedSelectedItem Fruits.apple))))).
Proof.
  split; [reflexivity|].
  apply (chip_focus_in_range Fruits.config); [|reflexivity].
  apply reachable_update; [|reflexivity].
  apply reachable_update; [|exact I].
  apply reachable_init.
Defined.

(** C9 as stated fails: on the initial model, where nothing is selected,
    [focused-selected-item] finds no chip for its item and stores the [-1] of
    [findIndex] as [focusedIndex]; and a [set-selected-items] with the empty
    list, dispatched while the second chip has the focus, leaves the focus on
    index [1] of an empty list. *)
Lemma chip_focus_counterexample :
  (reachable Fruits.config
     (fst (update Fruits.config Fruits.initial
             (FocusedSelectedItem Fruits.pear))) /\
   state
     (fst (update Fruits.config Fruits.initial
             (FocusedSelectedItem Fruits.pear)))
   = SelectedItemHighlighted (-1) /\
   selectedItems
     (fst (update Fruits.config Fruits.initial
             (FocusedSelectedItem Fruits.pear)))
   = []) /\
  (state
     (fst (update Fruits.config
             (with_state Fruits.chipFocused (SelectedItemHighlighted 1))
             (SetSelectedItems [])))
   = SelectedItemHighlighted 1 /\
   selectedItems
     (fst (update Fruits.config
             (with_state Fruits.chipFocused (SelectedItemHighlighted 1))
             (SetSelectedItems [])))
   = []).
Proof.
  repeat split.
  apply reachable_update; [|exact I]. apply reachable_init.
Qed.

(** ** Pressing an item in the open dropdown *)

Section PressedItem.
Context {T : Type} {truthyT : Truthy T}.
Implicit Types (config : Config T) (model : Model T) (msg : Msg T).

(** With something already selected, a press in [focused__opened] in
    single-select mode does replace the selection, close the dropdown and
    show the text of the pressed item. *)
Lemma pressed_item_replaces_selection config model item :
  state model = FocusedOpened ->
  selectMode model = SingleSelect ->
  isEmptyItem config item = false ->
  isSelected model = true ->
  isSkipped model (PressedItem item) = false ->
  selectedItems (fst (update config model (PressedItem item))) = [item] /\
  state (fst (update config model (PressedItem item))) = FocusedClosed /\
  toCurrentInputValue config (fst (update config model (PressedItem item)))
  = toItemInputValue config item.
Proof.
  intros Hst Hmode Hempty Hsel Hskip.
  rewrite (update_unskipped config model _ Hskip).
  unfold updateUnskipped. cbn [fst updateSetters].
  rewrite scheduleSkips_frame.
  destruct model as [st all sel sk sm im]. cbn in Hst, Hmode. subst st sm.
  unfold isSelected in Hsel. cbn in Hsel.
  unfold updateModel. cbn [state]. rewrite Hempty.
  unfold toggleSelected, isSelected. cbn [selectedItems]. rewrite Hsel.
  destruct im; cbn; auto.
Qed.

(** With nothing selected, the press is ignored: [toggleSelected] returns
    the model before it looks at the select mode. *)
Lemma pressed_item_without_selection config model item :
  state model = FocusedOpened ->
  selectedItems model = [] ->
  isEmptyItem config item = false ->
  isSkipped model (PressedItem item) = false ->
  update config model (PressedItem item) = (model, []).
Proof.
  intros Hst Hsel Hempty Hskip.
  rewrite (update_unskipped config model _ Hskip).
  destruct model as [st all sel sk sm im]. cbn in Hst, Hsel. subst st sel.
  unfold updateUnskipped, updateModel. cbn [state]. rewrite Hempty.
  reflexivity.
Qed.
End PressedItem.

(** C1, at the input of Scenario 2.  After [init] and [focused-input] the
    model is in [focused__opened] with nothing selected; [pressed-item] of
    [apple] then returns that model unchanged: the dropdown stays open,
    [selectedItems] stays empty and the input text stays empty.
    [toggleSelected] returns early when nothing is selected. *)
Theorem pressed_item_unselected_ignored :
  state Fruits.focused = FocusedOpened /\
  selectedItems Fruits.focused = [] /\
  selectMode Fruits.focused = SingleSelect /\
  isEmptyItem Fruits.config Fruits.apple = false /\
  update Fruits.config Fruits.focused (PressedItem Fruits.apple)
  = (Fruits.focused, []) /\
  toCurrentInputValue Fruits.config
    (fst (update Fruits.config Fruits.focused (PressedItem Fruits.apple)))
  = EmptyString /\
  toItemInputValue Fruits.config Fruits.apple <> EmptyString.
Proof.
  repeat split.
  vm_compute. intros H. discriminate H.
Qed.

(** ** Replacing the candidate pool *)

(** Whatever the model, [set-all-items] leaves [selectedItems] as it
    was. *)
Lemma set_all_items_keeps_selectedItems {T : Type} {truthyT : Truthy T}
    (config : Config T)
    (model : Model T) (items : list T) :
  selectedItems (fst (update config model (SetAllItems items)))
  = selectedItems model.
Proof.
  unfold update. destruct (isSkipped model (SetAllItems items)).
  - reflexivity.
  - unfold updateUnskipped. cbn [fst].
    rewrite scheduleSkips_selectedItems,
      (updateModel_setter config model (SetAllItems items) eq_refl).
    reflexivity.
Qed.

(** C3, at the input of Scenario 5.  With [apple] selected,
    [set-all-items] with the empty list empties [allItems] and leaves the
    selection as it was: [toSelectedItem] still answers [apple] and
    [toCurrentInputValue] still answers its text. *)
Theorem set_all_items_keeps_selection :
  toSelectedItem Fruits.appleSelected = Some Fruits.apple /\
  allItems (fst (update Fruits.config Fruits.appleSelected (SetAllItems [])))
  = [] /\
  toSelectedItem
    (fst (update Fruits.config Fruits.appleSelected (SetAllItems [])))
  = Some Fruits.apple /\
  toCurrentInputValue Fruits.config
    (fst (update Fruits.config Fruits.appleSelected (SetAllItems [])))
  = toItemInputValue Fruits.config Fruits.apple /\
  toCurrentInputValue Fruits.config
    (fst (update Fruits.config
            (with_state Fruits.appleSelected Blurred) (SetAllItems [])))
  = toItemInputValue Fruits.config Fruits.apple.
Proof. repeat split. Qed.


(** * Further properties of the code *)

(** ** utils *)

(** X1.  [removeFirst] either finds no element that satisfies the predicate
    and returns the array as it is, or removes the first such element and
    keeps every other element in place. *)
Theorem removeFirst_first_match {A : Type} (p : A -> bool) (arr : list A) :
  (some p arr = false /\ removeFirst p arr = arr) \/
  (some p arr = true /\
   exists before x after,
     arr = before ++ x :: after /\ p x = true /\ some p before = false /\
     removeFirst p arr = before ++ after).
Proof.
  destruct (some p arr) eqn:Hs.
  - right. split; trivial. apply removeFirst_split. exact Hs.
  - left. split; trivial. unfold removeFirst, findIndex.
    destruct (findIndex_from_split p arr 0)
      as [[-> _]|(before & x & after & -> & Hx & _ & _)].
    + reflexivity.
    + exfalso. unfold some in Hs. rewrite existsb_app in Hs. cbn in Hs.
      rewrite Hx, orb_true_r in Hs. discriminate Hs.
Qed.

(** X2.  For a positive length, [circularIndex] always answers an index of
    the range [0 .. length - 1], whatever the sign or size of the index it is
    given, and it does not change when the index moves by a full turn. *)
Theorem circularIndex_in_range index length :
  0 < length ->
  0 <= circularIndex index length < length /\
  circularIndex (index + length) length = circularIndex index length /\
  circularIndex (index - length) length = circularIndex index length.
Proof.
  intros Hl. rewrite !circularIndex_mod by exact Hl. repeat split.
  - apply Z.mod_pos_bound. exact Hl.
  - apply Z.mod_pos_bound. exact Hl.
  - rewrite <- (Z.mod_add index 1 length) by lia. f_equal. lia.
  - rewrite <- (Z.mod_add (index - length) 1 length) by lia. f_equal. lia.
Qed.

Lemma circularIndex_in_range_witness :
  0 < 3 /\ 0 <= circularIndex (-7) 3 < 3 /\
  circularIndex (-7 + 3) 3 = circularIndex (-7) 3.
Proof.
  split; [lia|].
  destruct (circularIndex_in_range (-7) 3) as (Hr & Hp & _); [lia|].
  split; assumption.
Defined.

(** ** What an event leaves alone *)

Section MoreFrames.
Context {T : Type} {truthyT : Truthy T}.
Implicit Types (config : Config T) (model : Model T) (msg : Msg T).

Lemma updateSetters_selectMode model msg :
  MsgType_eqb (msg_type msg) set_mode = false ->
  selectMode (updateSetters model msg) = selectMode model.
Proof.
  intros Hm. destruct model as [st ? ? ? ? ?].
  destruct msg; try discriminate Hm; cbn; unfold isSelected;
    repeat break_match; reflexivity.
Qed.

(** X3.  Whatever the model, an event other than [set-mode] returns a model
    with the same [selectMode]: the select mode is the caller's to change. *)
Theorem update_keeps_selectMode config model msg :
  MsgType_eqb (msg_type msg) set_mode = false ->
  selectMode (fst (update config model msg)) = selectMode model.
Proof.
  intros Hm. unfold update. destruct (isSkipped model msg).
  - reflexivity.
  - unfold updateUnskipped. cbn [fst].
    rewrite scheduleSkips_selectMode, updateSetters_selectMode by exact Hm.
    apply updateModel_selectMode.
Qed.

Lemma updateModel_inputKind config model msg :
  sameInputKind (inputMode model) (inputMode (updateModel config model msg)).
Proof.
  by_table model; unfold sameInputKind; cbn; repeat break_match;
    try exact I; try discriminate; congruence.
Qed.

Lemma updateSetters_inputKind model msg :
  sameInputKind (inputMode model) (inputMode (updateSetters model msg)).
Proof.
  destruct model as [st ? sel ? ? im].
  destruct msg, im; cbn; unfold isSelected; cbn;
    try destruct (isNonEmpty sel); try destruct st; exact I.
Qed.

Lemma sameInputKind_trans a b c :
  sameInputKind a b -> sameInputKind b c -> sameInputKind a c.
Proof. destruct a, b, c; cbn; tauto. Qed.

(** X4.  No event changes the kind of the input mode: a select-only model
    stays select-only, with no text of its own, and a search-mode model stays
    search-mode, whatever is typed or set. *)
Theorem update_keeps_input_kind config model msg :
  sameInputKind (inputMode model) (inputMode (fst (update config model msg))).
Proof.
  unfold update. destruct (isSkipped model msg).
  - cbn. destruct (inputMode model); exact I.
  - unfold updateUnskipped. cbn [fst]. rewrite scheduleSkips_inputMode.
    eapply sameInputKind_trans;
      [apply updateModel_inputKind|apply updateSetters_inputKind].
Qed.

Lemma filter_indexed_from_incl {A : Type} (p : A -> Z -> bool) (arr : list A)
    (i : Z) :
  incl (filter_indexed_from p arr i) arr.
Proof.
  revert i. induction arr as [|x rest IH]; intros i; cbn.
  - apply incl_refl.
  - destruct (p x i).
    + apply incl_cons; [left; reflexivity|].
      apply incl_tl. apply IH.
    + apply incl_tl. apply IH.
Qed.

Lemma skipn_incl {A : Type} (n : nat) (arr : list A) : incl (skipn n arr) arr.
Proof.
  intros x Hin. rewrite <- (firstn_skipn n arr). apply in_or_app. right.
  exact Hin.
Qed.

Lemma updateModel_selection_shrinks config model msg :
  addsSelection (msg_type msg) = false ->
  incl (selectedItems (updateModel config model msg)) (selectedItems model).
Proof.
  intros Hadd. destruct model as [st all sel sk sm im].
  destruct st, msg; try discriminate Hadd; unfold_table;
    repeat break_match; cbn;
    first [ apply incl_refl | apply incl_nil_l | apply incl_filter
          | apply skipn_incl | apply filter_indexed_from_incl ].
Qed.

(** X5.  Only [pressed-item], [pressed-enter-key] and [set-selected-items]
    can bring an item into the selection: after any other event, every
    selected item was selected before. *)
Theorem update_selection_shrinks config model msg :
  addsSelection (msg_type msg) = false ->
  incl (selectedItems (fst (update config model msg))) (selectedItems model).
Proof.
  intros Hadd. unfold update. destruct (isSkipped model msg).
  - apply incl_refl.
  - unfold updateUnskipped. cbn [fst]. rewrite scheduleSkips_selectedItems.
    destruct (isSetter (msg_type msg)) eqn:Hset.
    + rewrite (updateModel_setter config model msg Hset).
      destruct model as [st all sel sk sm im].
      destruct msg; try discriminate Hset; try discriminate Hadd; cbn;
        repeat break_match; apply incl_refl.
    + rewrite (updateSetters_other _ _ Hset).
      apply updateModel_selection_shrinks. exact Hadd.
Qed.

(** X6.  On a model that comes from [init] and [update], the only events
    that can be swallowed are [hovered-over-item] and [pressed-input]: no
    key press, item press, focus change or setter is ever dropped. *)
Theorem only_hover_and_press_swallowed config model msg :
  reachable config model ->
  isSkipped model msg = true ->
  msg_type msg = hovered_over_item \/ msg_type msg = pressed_input.
Proof.
  intros Hreach Hskip.
  destruct (MsgType_eqb (msg_type msg) hovered_over_item) eqn:Hh.
  - left. apply MsgType_eqb_eq. exact Hh.
  - destruct (MsgType_eqb (msg_type msg) pressed_input) eqn:Hp.
    + right. apply MsgType_eqb_eq. exact Hp.
    + exfalso.
      rewrite (reachable_not_skipped config _ model msg Hreach) in Hskip.
      * discriminate Hskip.
      * intros E. apply MsgType_eqb_eq in E. congruence.
      * intros E. apply MsgType_eqb_eq in E. congruence.
Qed.
End MoreFrames.

Lemma update_keeps_selectMode_witness :
  MsgType_eqb (msg_type (PressedItem Fruits.apple)) set_mode = false /\
  selectMode
    (fst (update Fruits.config Basket.multiHighlighted
            (PressedItem Fruits.apple)))
  = MultiSelect LeftToRight.
Proof.
  split; [reflexivity|].
  apply (update_keeps_selectMode Fruits.config Basket.multiHighlighted
           (PressedItem Fruits.apple)).
  reflexivity.
Defined.

Lemma update_selection_shrinks_witness :
  addsSelection (msg_type (PressedUnselectButton Fruits.pear)) = false /\
  incl
    (selectedItems
       (fst (update Fruits.config Fruits.chipFocused
               (PressedUnselectButton Fruits.pear))))
    [Fruits.pear; Fruits.apple].
Proof.
  split; [reflexivity|].
  apply (update_selection_shrinks Fruits.config Fruits.chipFocused
           (PressedUnselectButton Fruits.pear)).
  reflexivity.
Defined.

Lemma only_hover_and_press_swallowed_witness :
  isSkipped Fruits.focused (@PressedInput Fruits.Item) = true /\
  (msg_type (@PressedInput Fruits.Item) = hovered_over_item \/
   msg_type (@PressedInput Fruits.Item) = pressed_input).
Proof.
  split; [reflexivity|].
  apply (only_hover_and_press_swallowed Fruits.config Fruits.focused
           PressedInput); [|reflexivity].
  apply reachable_update; [|exact I]. apply reachable_init.
Defined.


(** ** Suppressions at work *)

Section Suppressions.
Context {T : Type} {truthyT : Truthy T}.
Implicit Types (config : Config T) (model prev next : Model T) (msg : Msg T).

Lemma scheduleSkips_opening prev next (effects : list (Effect T)) :
  isClosed prev = true -> isOpened next = true ->
  In hovered_over_item (skipOnce (scheduleSkips prev next effects)).
Proof.
  intros Hc Ho. destruct next as [st all sel sk sm im].
  unfold scheduleSkips. rewrite Hc. unfold isOpened in Ho. cbn in Ho.
  unfold isOpened, isFocused, isBlurred, with_skipOnce.
  destruct st; try discriminate Ho; cbn;
    repeat (cbn; break_match); cbn in *; try discriminate;
    rewrite ?in_app_iff; cbn; intuition auto.
Qed.

Lemma scheduleSkips_focusing prev next (effects : list (Effect T)) :
  isBlurred prev = true -> isFocused next = true ->
  In pressed_input (skipOnce (scheduleSkips prev next effects)).
Proof.
  intros Hb Hf. destruct next as [st all sel sk sm im].
  destruct prev as [pst pall psel psk psm pim].
  unfold isBlurred in Hb. cbn in Hb. destruct pst; try discriminate Hb.
  unfold isFocused, isBlurred in Hf. cbn in Hf.
  unfold scheduleSkips.
  destruct st; try discriminate Hf;
    destruct (some isScrollItemIntoView effects); cbn;
    rewrite ?in_app_iff; cbn; intuition auto.
Qed.

(** X7.  Whenever an [update] takes the dropdown from closed to open, it
    leaves a hover suppression behind: the next [hovered-over-item] is
    swallowed, so the pointer that happens to rest where the list appears
    highlights nothing and requests nothing. *)
Theorem opening_swallows_next_hover config model msg index :
  isClosed model = true ->
  isOpened (fst (update config model msg)) = true ->
  isSkipped (fst (update config model msg)) (HoveredOverItem index) = true /\
  state
    (fst (update config (fst (update config model msg))
            (HoveredOverItem index)))
  = state (fst (update config model msg)) /\
  snd (update config (fst (update config model msg)) (HoveredOverItem index))
  = [].
Proof.
  intros Hc Ho.
  assert (Hskip :
            isSkipped (fst (update config model msg)) (HoveredOverItem index)
            = true).
  { apply isSkipped_In. cbn [msg_type]. revert Ho. unfold update.
    destruct (isSkipped model msg).
    - cbn. unfold isClosed in Hc. intros Ho. unfold isOpened in *.
      cbn in Ho. rewrite Ho in Hc. discriminate Hc.
    - unfold updateUnskipped. cbn [fst]. intros Ho.
      apply scheduleSkips_opening; trivial.
      unfold isOpened in *. rewrite scheduleSkips_state in Ho. exact Ho. }
  split; [exact Hskip|].
  rewrite (update_skipped config _ _ Hskip). split; reflexivity.
Qed.

(** X8.  A blurred input that receives [focused-input] and then
    [pressed-input], the pair that one click produces, ends with its
    dropdown open: the focus opens it and queues a press suppression, and the
    press is swallowed without an effect instead of closing it again. *)
Theorem focus_then_press_stays_open config model :
  state model = Blurred ->
  isSkipped model FocusedInput = false ->
  state (fst (update config model FocusedInput)) = FocusedOpened /\
  state (dispatchAll config model [FocusedInput; PressedInput])
  = FocusedOpened /\
  snd (update config (fst (update config model FocusedInput)) PressedInput)
  = [].
Proof.
  intros Hst Hskip.
  assert (Hopen : state (fst (update config model FocusedInput))
                  = FocusedOpened).
  { rewrite (update_unskipped config model _ Hskip).
    unfold updateUnskipped. cbn [fst updateSetters].
    rewrite scheduleSkips_state.
    destruct model as [st all sel sk sm im]. cbn in Hst. subst st.
    unfold_table. repeat break_match; reflexivity. }
  assert (Hpress :
            isSkipped (fst (update config model FocusedInput)) PressedInput
            = true).
  { apply isSkipped_In. cbn [msg_type].
    rewrite (update_unskipped config model _ Hskip).
    unfold updateUnskipped. cbn [fst].
    apply scheduleSkips_focusing.
    - unfold isBlurred. rewrite Hst. reflexivity.
    - rewrite (update_unskipped config model _ Hskip) in Hopen.
      unfold updateUnskipped in Hopen. cbn [fst] in Hopen.
      rewrite scheduleSkips_state in Hopen.
      unfold isFocused, isBlurred. rewrite Hopen. reflexivity. }
  split; [exact Hopen|]. cbn [dispatchAll].
  rewrite (update_skipped config _ _ Hpress). cbn [fst snd state with_skipOnce].
  split; [exact Hopen|reflexivity].
Qed.

(** X9.  Without a suppression pending, [pressed-input] toggles the dropdown
    of a focused input, closed to open and open to closed, and requests
    [focus-input] either way. *)
Theorem pressed_input_toggles config model :
  state model = FocusedClosed \/ state model = FocusedOpened ->
  isSkipped model PressedInput = false ->
  state (fst (update config model PressedInput))
  = (if isOpened model then FocusedClosed else FocusedOpened) /\
  In FocusInput (snd (update config model PressedInput)).
Proof.
  intros Hst Hskip. rewrite (update_unskipped config model _ Hskip).
  unfold updateUnskipped. cbn [fst snd updateSetters].
  rewrite scheduleSkips_state.
  destruct model as [st all sel sk sm im]. cbn in Hst.
  destruct Hst as [->| ->]; (split; [reflexivity|]);
    unfold toEffects; cbn; repeat break_match; cbn; auto.
Qed.
End Suppressions.

Lemma opening_swallows_next_hover_witness :
  isClosed Fruits.appleSelected = true /\
  isOpened (fst (update Fruits.config Fruits.appleSelected PressedInput))
  = true /\
  state
    (fst (update Fruits.config
            (fst (update Fruits.config Fruits.appleSelected PressedInput))
            (HoveredOverItem 2)))
  = FocusedOpened.
Proof.
  split; [reflexivity|]. split; [reflexivity|].
  destruct (opening_swallows_next_hover Fruits.config Fruits.appleSelected
              PressedInput 2 eq_refl eq_refl) as (_ & Hstate & _).
  rewrite Hstate. reflexivity.
Defined.

Lemma focus_then_press_stays_open_witness :
  state Fruits.initial = Blurred /\
  state
    (dispatchAll Fruits.config Fruits.initial [FocusedInput; PressedInput])
  = FocusedOpened.
Proof.
  split; [reflexivity|].
  apply (focus_then_press_stays_open Fruits.config Fruits.initial);
    reflexivity.
Defined.

Lemma pressed_input_toggles_witness :
  state Basket.opened = FocusedOpened /\
  state (fst (update Fruits.config Basket.opened PressedInput))
  = FocusedClosed.
Proof.
  split; [reflexivity|].
  apply (pressed_input_toggles Fruits.config Basket.opened);
    [right; reflexivity|reflexivity].
Defined.

(** ** Leaving and closing *)

Section Closing.
Context {T : Type} {truthyT : Truthy T}.
Implicit Types (config : Config T) (model : Model T) (msg : Msg T).

Lemma toEffects_closed_no_scroll config prev next msg :
  isOpened next = false ->
  some isScrollItemIntoView (toEffects config prev next msg) = false.
Proof.
  intros Hclosed. unfold toEffects, some. rewrite Hclosed, andb_false_r.
  unfold isOpened in Hclosed. rewrite !existsb_app.
  destruct (state next); try discriminate Hclosed; cbn;
    repeat break_match; reflexivity.
Qed.

(** X10.  A blurred combobox stays blurred, and asks for no scrolling, under
    every event except [focused-input] and [focused-selected-item]: nothing
    opens the dropdown of an input that has not been given the focus. *)
Theorem blurred_until_focused config model msg :
  state model = Blurred ->
  MsgType_eqb (msg_type msg) focused_input = false ->
  MsgType_eqb (msg_type msg) focused_selected_item = false ->
  state (fst (update config model msg)) = Blurred /\
  some isScrollItemIntoView (snd (update config model msg)) = false.
Proof.
  intros Hst Hfi Hfs. unfold update. destruct (isSkipped model msg).
  - split; [exact Hst|reflexivity].
  - unfold updateUnskipped. cbn [fst snd]. rewrite scheduleSkips_state.
    assert (Hnext : state (updateSetters (updateModel config model msg) msg)
                    = Blurred).
    { destruct model as [st all sel sk sm im]. cbn in Hst. subst st.
      destruct msg; try discriminate Hfi; try discriminate Hfs;
        unfold_table; unfold updateSetters, isSelected;
        repeat (cbn; break_match); reflexivity. }
    split; [exact Hnext|]. apply toEffects_closed_no_scroll.
    unfold isOpened. rewrite Hnext. reflexivity.
Qed.

(** X11.  From the three phases in which the input has the focus,
    [blurred-input] goes to [blurred] and changes nothing else: items,
    selection, modes and text are kept, and no effect is requested. *)
Theorem blurred_input_blurs config model :
  inputFocused (state model) = true ->
  isSkipped model BlurredInput = false ->
  update config model BlurredInput = (with_state model Blurred, []).
Proof.
  intros Hph Hskip. rewrite (update_unskipped config model _ Hskip).
  destruct model as [st all sel sk sm im]. cbn in Hph.
  destruct st; try discriminate Hph; reflexivity.
Qed.

(** X12.  [pressed-escape-key] on an open dropdown closes it, drops the
    highlight, and keeps the focus, the selection and the text; it requests
    no effect. *)
Theorem escape_closes config model :
  isOpened model = true ->
  isSkipped model PressedEscapeKey = false ->
  update config model PressedEscapeKey = (with_state model FocusedClosed, []).
Proof.
  intros Hop Hskip. rewrite (update_unskipped config model _ Hskip).
  destruct model as [st all sel sk sm im]. unfold isOpened in Hop.
  cbn in Hop. destruct st; try discriminate Hop; reflexivity.
Qed.

(** X13.  While the search box holds text, [pressed-backspace-key] in the
    three input phases is left to the text field: the model comes back
    unchanged, the selection included, with no effect. *)
Theorem backspace_with_text_is_ignored config model text :
  inputFocused (state model) = true ->
  inputMode model = SearchMode text ->
  String.eqb text EmptyString = false ->
  isSkipped model PressedBackspaceKey = false ->
  update config model PressedBackspaceKey = (model, []).
Proof.
  intros Hph Him Htext Hskip. rewrite (update_unskipped config model _ Hskip).
  destruct model as [st all sel sk sm im]. cbn in Hph, Him. subst im.
  destruct text as [|c rest]; [discriminate Htext|].
  destruct st; try discriminate Hph; destruct sm; reflexivity.
Qed.

(** X14.  [hovered-over-item] on an open dropdown highlights exactly the
    index it carries, in range or not, changes nothing else and requests no
    effect: the pointer never scrolls the list. *)
Theorem hover_highlights config model index :
  isOpened model = true ->
  isSkipped model (HoveredOverItem index) = false ->
  update config model (HoveredOverItem index)
  = (with_state model (FocusedOpenedHighlighted index), []).
Proof.
  intros Hop Hskip. rewrite (update_unskipped config model _ Hskip).
  destruct model as [st all sel sk sm im]. unfold isOpened in Hop.
  cbn in Hop. destruct st; try discriminate Hop; reflexivity.
Qed.
End Closing.

Lemma blurred_until_focused_witness :
  state Fruits.initial = Blurred /\
  state
    (fst (update Fruits.config Fruits.initial
            (PressedVerticalArrowKey arrow_down)))
  = Blurred.
Proof.
  split; [reflexivity|].
  apply (blurred_until_focused Fruits.config Fruits.initial
           (PressedVerticalArrowKey arrow_down)); reflexivity.
Defined.

Lemma blurred_input_blurs_witness :
  inputFocused (state Basket.multiHighlighted) = true /\
  update Fruits.config Basket.multiHighlighted BlurredInput
  = (with_state Basket.multiHighlighted Blurred, []).
Proof.
  split; [reflexivity|].
  apply (blurred_input_blurs Fruits.config Basket.multiHighlighted);
    reflexivity.
Defined.

Lemma escape_closes_witness :
  isOpened Basket.multiHighlighted = true /\
  update Fruits.config Basket.multiHighlighted PressedEscapeKey
  = (with_state Basket.multiHighlighted FocusedClosed, []).
Proof.
  split; [reflexivity|].
  apply (escape_closes Fruits.config Basket.multiHighlighted); reflexivity.
Defined.

Lemma backspace_with_text_is_ignored_witness :
  inputMode Basket.typing = SearchMode "an" /\
  update Fruits.config Basket.typing PressedBackspaceKey
  = (Basket.typing, []).
Proof.
  split; [reflexivity|].
  apply (backspace_with_text_is_ignored Fruits.config Basket.typing "an");
    reflexivity.
Defined.

Lemma hover_highlights_witness :
  isOpened Basket.opened = true /\
  update Fruits.config Basket.opened (HoveredOverItem 5)
  = (with_state Basket.opened (FocusedOpenedHighlighted 5), []).
Proof.
  split; [reflexivity|].
  apply (hover_highlights Fruits.config Basket.opened 5); reflexivity.
Defined.


(** ** Array lookups *)

Section LookupFacts.
Context {A : Type}.

Lemma at_index_outside (arr : list A) (i : Z) :
  i < 0 \/ len arr <= i -> at_index arr i = None.
Proof.
  unfold at_index, len. intros [Hneg|Hbig].
  - destruct (i <? 0) eqn:E; [reflexivity|lia].
  - destruct (i <? 0); [reflexivity|]. apply nth_error_None. lia.
Qed.

Lemma at_index_inside (arr : list A) (i : Z) :
  0 <= i < len arr -> exists x, at_index arr i = Some x /\ In x arr.
Proof.
  unfold at_index, len. intros Hi.
  destruct (i <? 0) eqn:E; [lia|].
  destruct (nth_error arr (Z.to_nat i)) as [x|] eqn:Hx.
  - exists x. split; [reflexivity|]. eapply nth_error_In. exact Hx.
  - apply nth_error_None in Hx. lia.
Qed.

Lemma at_index_In (arr : list A) (i : Z) (x : A) :
  at_index arr i = Some x -> In x arr.
Proof.
  unfold at_index. destruct (i <? 0); [discriminate|].
  apply nth_error_In.
Qed.

(** Filtering out one position. *)
Lemma filter_indexed_from_drop (arr : list A) (k target : Z) :
  (k <= target < k + len arr ->
   filter_indexed_from (fun _ index => negb (index =? target)) arr k
   = slice_to arr (target - k) ++ slice_from arr (target - k + 1)) /\
  (target < k \/ k + len arr <= target ->
   filter_indexed_from (fun _ index => negb (index =? target)) arr k = arr).
Proof.
  revert k. induction arr as [|x rest IH]; intros k.
  - split; intros H; [unfold len in H; cbn in H; lia|reflexivity].
  - rewrite len_cons. pose proof (len_nonneg rest) as Hrest.
    destruct (IH (k + 1)) as [IHin IHout].
    cbn [filter_indexed_from]. split; intros H.
    + destruct (k =? target) eqn:E; cbn [negb].
      * apply Z.eqb_eq in E. subst target.
        rewrite IHout by lia.
        replace (k - k) with 0 by lia. reflexivity.
      * apply Z.eqb_neq in E. rewrite IHin by lia.
        unfold slice_to, slice_from.
        replace (Z.to_nat (target - k))
          with (S (Z.to_nat (target - (k + 1)))) by lia.
        replace (Z.to_nat (target - k + 1))
          with (S (Z.to_nat (target - (k + 1) + 1))) by lia.
        reflexivity.
    + destruct (k =? target) eqn:E; [apply Z.eqb_eq in E; lia|].
      cbn [negb]. rewrite IHout by lia. reflexivity.
Qed.
End LookupFacts.

Lemma ID_eqb_refl (a : ID) : ID_eqb a a = true.
Proof. destruct a; cbn; [apply String.eqb_refl|apply Z.eqb_refl]. Qed.

(** ** Removing and typing *)

Section Editing.
Context {T : Type} {truthyT : Truthy T}.
Implicit Types (config : Config T) (model : Model T) (msg : Msg T).

(** X15.  [pressed-backspace-key] while a chip has the focus returns to
    [focused__closed] and hands the focus back to the input.  When the
    focused index is an index of [selectedItems] it removes exactly the item
    at that index; when it is not, the selection is kept whole. *)
Theorem backspace_removes_focused_chip config model focusedIndex :
  state model = SelectedItemHighlighted focusedIndex ->
  isSkipped model PressedBackspaceKey = false ->
  state (fst (update config model PressedBackspaceKey)) = FocusedClosed /\
  snd (update config model PressedBackspaceKey) = [FocusInput] /\
  (0 <= focusedIndex < len (selectedItems model) ->
   selectedItems (fst (update config model PressedBackspaceKey))
   = slice_to (selectedItems model) focusedIndex
     ++ slice_from (selectedItems model) (focusedIndex + 1) /\
   len (selectedItems (fst (update config model PressedBackspaceKey)))
   = len (selectedItems model) - 1) /\
  (focusedIndex < 0 \/ len (selectedItems model) <= focusedIndex ->
   selectedItems (fst (update config model PressedBackspaceKey))
   = selectedItems model).
Proof.
  intros Hst Hskip. rewrite (update_unskipped config model _ Hskip).
  unfold updateUnskipped. cbn [fst snd updateSetters].
  rewrite scheduleSkips_state, scheduleSkips_selectedItems.
  destruct model as [st all sel sk sm im]. cbn in Hst. subst st.
  cbn [selectedItems].
  destruct (filter_indexed_from_drop sel 0 focusedIndex) as [Hin Hout].
  rewrite Z.add_0_l, Z.sub_0_r in Hin. rewrite Z.add_0_l in Hout.
  assert (Hsel :
            selectedItems
              (updateModel config
                 (mkModel (SelectedItemHighlighted focusedIndex) all sel sk
                    sm im) PressedBackspaceKey)
            = filter_indexed
                (fun _ index => negb (index =? focusedIndex)) sel).
  { unfold_table. destruct im; reflexivity. }
  rewrite Hsel. unfold filter_indexed.
  repeat split.
  - unfold_table. destruct im; reflexivity.
  - unfold_table. destruct im; reflexivity.
  - rewrite Hin by assumption. reflexivity.
  - rewrite Hin by assumption. rewrite len_app. unfold slice_to, slice_from, len.
    rewrite length_firstn, length_skipn. unfold len in H. lia.
  - intros Hrange. apply Hout. exact Hrange.
Qed.

(** X16.  In search-mode, [inputted-value] in any focused phase stores the
    typed text verbatim, opens the dropdown, and the input shows that
    text. *)
Theorem typing_opens_and_stores config model text old :
  isFocused model = true ->
  inputMode model = SearchMode old ->
  isSkipped model (InputtedValue text) = false ->
  inputMode (fst (update config model (InputtedValue text)))
  = SearchMode text /\
  isOpened (fst (update config model (InputtedValue text))) = true /\
  toCurrentInputValue config (fst (update config model (InputtedValue text)))
  = text.
Proof.
  intros Hf Him Hskip. rewrite (update_unskipped config model _ Hskip).
  unfold updateUnskipped. cbn [fst updateSetters].
  rewrite (scheduleSkips_frame model).
  destruct model as [st all sel sk sm im]. cbn in Him. subst im.
  unfold isFocused, isBlurred in Hf. cbn in Hf.
  destruct st; try discriminate Hf; unfold_table;
    unfold toSearchValue; cbn;
    repeat (break_match; cbn); repeat split; try reflexivity;
    try (apply String.eqb_eq in Heqb; congruence);
    apply andb_true_iff in Heqb; destruct Heqb as [Hempty _];
    apply String.eqb_eq in Hempty; subst text; reflexivity.
Qed.

(** X17.  In single-select search-mode, typing the empty text into an open
    dropdown clears the selection and leaves the dropdown open with nothing
    highlighted; typed into a closed, focused input it opens the dropdown
    and keeps the selection. *)
Theorem typing_nothing_deselects config model old :
  inputFocused (state model) = true ->
  selectMode model = SingleSelect ->
  inputMode model = SearchMode old ->
  isSkipped model (InputtedValue EmptyString) = false ->
  state (fst (update config model (InputtedValue EmptyString)))
  = FocusedOpened /\
  selectedItems (fst (update config model (InputtedValue EmptyString)))
  = (if isOpened model then [] else selectedItems model).
Proof.
  intros Hph Hsm Him Hskip. rewrite (update_unskipped config model _ Hskip).
  unfold updateUnskipped. cbn [fst updateSetters].
  rewrite scheduleSkips_state, scheduleSkips_selectedItems.
  destruct model as [st all sel sk sm im]. cbn in Hph, Hsm, Him. subst sm im.
  destruct st; try discriminate Hph; split; reflexivity.
Qed.

(** X18.  [pressed-unselect-all-button] never empties the selection: in
    every phase the selected items stay as they are, and the event requests
    [focus-input]. *)
Theorem unselect_all_keeps_selection config model :
  isSkipped model PressedUnselectAllButton = false ->
  selectedItems (fst (update config model PressedUnselectAllButton))
  = selectedItems model /\
  In FocusInput (snd (update config model PressedUnselectAllButton)).
Proof.
  intros Hskip. rewrite (update_unskipped config model _ Hskip).
  unfold updateUnskipped. cbn [fst snd updateSetters].
  rewrite scheduleSkips_selectedItems. split.
  - destruct model as [st all sel sk sm im].
    destruct st; unfold_table; repeat break_match; reflexivity.
  - unfold toEffects. cbn [msg_type MsgType_eqb].
    rewrite !in_app_iff. do 5 right. left. reflexivity.
Qed.


(** X20.  [set-selected-items] installs the list it carries, as it is.  On
    a model that has a selection the phase is kept; on a model without one
    the combobox is put back to [blurred], whatever phase it was in. *)
Theorem set_selected_items_blurs_unselected config model items :
  isSkipped model (SetSelectedItems items) = false ->
  selectedItems (fst (update config model (SetSelectedItems items))) = items /\
  state (fst (update config model (SetSelectedItems items)))
  = (if isSelected model then state model else Blurred).
Proof.
  intros Hskip. rewrite (update_unskipped config model _ Hskip).
  unfold updateUnskipped. cbn [fst].
  rewrite scheduleSkips_state, scheduleSkips_selectedItems.
  rewrite (updateModel_setter config model (SetSelectedItems items) eq_refl).
  cbn [updateSetters]. destruct (isSelected model); split; reflexivity.
Qed.
End Editing.


Lemma backspace_removes_focused_chip_witness :
  state Fruits.chipFocused = SelectedItemHighlighted 0 /\
  selectedItems (fst (update Fruits.config Fruits.chipFocused
                        PressedBackspaceKey))
  = [Fruits.apple].
Proof.
  split; [reflexivity|].
  destruct (backspace_removes_focused_chip Fruits.config Fruits.chipFocused 0
              eq_refl eq_refl) as (_ & _ & Hin & _).
  destruct Hin as [Hsel _]; [unfold len; cbn; lia|].
  rewrite Hsel. reflexivity.
Defined.

Lemma typing_opens_and_stores_witness :
  isFocused Basket.typing = true /\
  toCurrentInputValue Fruits.config
    (fst (update Fruits.config Basket.typing (InputtedValue "ana")))
  = "ana"%string.
Proof.
  split; [reflexivity|].
  apply (typing_opens_and_stores Fruits.config Basket.typing "ana" "an");
    reflexivity.
Defined.

Lemma typing_nothing_deselects_witness :
  isOpened Basket.strayHighlight = true /\
  selectedItems
    (fst (update Fruits.config Basket.strayHighlight
            (InputtedValue EmptyString)))
  = [].
Proof.
  split; [reflexivity|].
  apply (typing_nothing_deselects Fruits.config Basket.strayHighlight "");
    reflexivity.
Defined.

Lemma unselect_all_keeps_selection_witness :
  isSkipped Fruits.appleSelected (@PressedUnselectAllButton Fruits.Item)
  = false /\
  selectedItems
    (fst (update Fruits.config Fruits.appleSelected
            PressedUnselectAllButton))
  = [Fruits.apple].
Proof.
  split; [reflexivity|].
  apply (unselect_all_keeps_selection Fruits.config Fruits.appleSelected).
  reflexivity.
Defined.


Lemma set_selected_items_blurs_unselected_witness :
  isSkipped Basket.opened (SetSelectedItems [Fruits.banana]) = false /\
  state
    (fst (update Fruits.config Basket.opened
            (SetSelectedItems [Fruits.banana])))
  = Blurred.
Proof.
  split; [reflexivity|].
  apply (set_selected_items_blurs_unselected Fruits.config Basket.opened
           [Fruits.banana]).
  reflexivity.
Defined.


(** ** The highlight *)

Section Highlight.
Context {T : Type} {truthyT : Truthy T}.
Implicit Types (config : Config T) (model : Model T) (msg : Msg T).

(** X21.  A highlight index that falls outside the visible items counts as
    no highlight for the item selectors: [toHighlightedItem] answers [null],
    no item is highlighted, and an item's status is [selected] or
    [unselected]; only the index test [isItemIndexHighlighted] still answers
    for the stray index. *)
Theorem stray_highlight_is_no_highlight config model highlightIndex item :
  state model = FocusedOpenedHighlighted highlightIndex ->
  highlightIndex < 0 \/ len (toVisibleItems config model) <= highlightIndex ->
  toHighlightedItem config model = None /\
  isItemHighlighted config model item = false /\
  toItemStatus config model item
  = (if isItemSelected config model item then selected else unselected) /\
  isItemIndexHighlighted model highlightIndex = true.
Proof.
  intros Hst Hout.
  assert (Hnone : toHighlightedItem config model = None).
  { unfold toHighlightedItem. rewrite Hst. apply at_index_outside. exact Hout. }
  assert (Hitem : isItemHighlighted config model item = false).
  { unfold isItemHighlighted. rewrite Hnone. reflexivity. }
  repeat split; trivial.
  - unfold toItemStatus, isItemSelectedAndHighlighted. rewrite Hitem.
    rewrite andb_false_r. reflexivity.
  - unfold isItemIndexHighlighted. rewrite Hst. apply Z.eqb_refl.
Qed.

(** X22.  [pressed-enter-key] on a highlight index outside the visible
    items selects nothing: it closes the dropdown and leaves the rest of the
    model as it was, with no effect. *)
Theorem enter_on_stray_highlight_closes config model highlightIndex :
  state model = FocusedOpenedHighlighted highlightIndex ->
  highlightIndex < 0 \/ len (toVisibleItems config model) <= highlightIndex ->
  isSkipped model PressedEnterKey = false ->
  update config model PressedEnterKey = (with_state model FocusedClosed, []).
Proof.
  intros Hst Hout Hskip. rewrite (update_unskipped config model _ Hskip).
  pose proof (at_index_outside _ _ Hout) as Hnone.
  destruct model as [st all sel sk sm im]. cbn in Hst. subst st.
  unfold updateUnskipped, updateModel, at_truthy. cbn [state].
  rewrite Hnone. reflexivity.
Qed.

(** X23.  In single-select mode, [pressed-enter-key] on a highlighted
    visible item that is not the empty item depends on the truthiness of the
    item.  A truthy item becomes the one selected item, the dropdown closes,
    the input shows the item's text and no effect is requested.  A falsy
    item (the number [0], the empty string) is taken for no item: the
    dropdown closes and nothing else changes. *)
Theorem enter_selects_highlighted config model highlightIndex item :
  state model = FocusedOpenedHighlighted highlightIndex ->
  at_index (toVisibleItems config model) highlightIndex = Some item ->
  isEmptyItem config item = false ->
  selectMode model = SingleSelect ->
  isSkipped model PressedEnterKey = false ->
  if truthy item
  then
    selectedItems (fst (update config model PressedEnterKey)) = [item] /\
    state (fst (update config model PressedEnterKey)) = FocusedClosed /\
    toCurrentInputValue config (fst (update config model PressedEnterKey))
    = toItemInputValue config item /\
    snd (update config model PressedEnterKey) = []
  else
    update config model PressedEnterKey = (with_state model FocusedClosed, []).
Proof.
  intros Hst Hitem Hempty Hsm Hskip.
  rewrite (update_unskipped config model _ Hskip).
  unfold updateUnskipped. cbn [fst snd updateSetters].
  rewrite (scheduleSkips_frame model).
  destruct model as [st all sel sk sm im]. cbn in Hst, Hsm. subst st sm.
  unfold updateModel, at_truthy. cbn [state]. rewrite Hitem.
  destruct (truthy item).
  - rewrite Hempty. destruct im; repeat split; reflexivity.
  - reflexivity.
Qed.

(** X24.  In single-select mode, [pressed-item] in the highlighted phase, on
    an item that is not the empty item, makes it the one selected item
    whether or not something was selected before, closes the dropdown and
    shows the item's text in the input. *)
Theorem pressed_item_selects_when_highlighted config model highlightIndex
    item :
  state model = FocusedOpenedHighlighted highlightIndex ->
  isEmptyItem config item = false ->
  selectMode model = SingleSelect ->
  isSkipped model (PressedItem item) = false ->
  selectedItems (fst (update config model (PressedItem item))) = [item] /\
  state (fst (update config model (PressedItem item))) = FocusedClosed /\
  toCurrentInputValue config (fst (update config model (PressedItem item)))
  = toItemInputValue config item /\
  snd (update config model (PressedItem item)) = [].
Proof.
  intros Hst Hempty Hsm Hskip.
  rewrite (update_unskipped config model _ Hskip).
  unfold updateUnskipped. cbn [fst snd updateSetters].
  rewrite (scheduleSkips_frame model).
  destruct model as [st all sel sk sm im]. cbn in Hst, Hsm. subst st sm.
  unfold updateModel. cbn [state]. rewrite Hempty.
  destruct im; repeat split; reflexivity.
Qed.

(** X25.  In multi-select mode, [pressed-item] in the highlighted phase
    closes the dropdown and toggles the item by id: an item that is not
    selected is appended to the selection; a selected item is removed,
    with every other item of the same id, when some item of another id
    stays; the only selected id cannot be toggled off, and the selection is
    then kept. *)
Theorem pressed_item_toggles_in_multi_select config model highlightIndex
    direction item :
  state model = FocusedOpenedHighlighted highlightIndex ->
  isEmptyItem config item = false ->
  selectMode model = MultiSelect direction ->
  isSkipped model (PressedItem item) = false ->
  state (fst (update config model (PressedItem item))) = FocusedClosed /\
  selectedItems (fst (update config model (PressedItem item)))
  = (if isItemSelected config model item
     then
       if isNonEmpty (removeSelected config item (selectedItems model))
       then removeSelected config item (selectedItems model)
       else selectedItems model
     else selectedItems model ++ [item]) /\
  isSelected (fst (update config model (PressedItem item))) = true /\
  isItemSelected config (fst (update config model (PressedItem item))) item
  = negb (isItemSelected config model item
          && isNonEmpty (removeSelected config item (selectedItems model))).
Proof.
  intros Hst Hempty Hsm Hskip.
  rewrite (update_unskipped config model _ Hskip).
  unfold updateUnskipped. cbn [fst updateSetters].
  rewrite (scheduleSkips_frame model).
  destruct model as [st all sel sk sm im]. cbn in Hst, Hsm. subst st sm.
  unfold updateModel. cbn [state selectMode]. rewrite Hempty.
  unfold removeSelected.
  unfold isItemSelected at 1. cbn [selectedItems].
  destruct (some _ sel) eqn:Hsel; cbn [negb].
  - unfold isItemSelected. cbn [selectedItems]. rewrite Hsel.
    destruct (isNonEmpty (filter _ sel)) eqn:Hrem.
    + cbn. repeat split.
      * unfold isSelected. cbn. exact Hrem.
      * destruct (existsb _ _) eqn:E; [|reflexivity].
        apply existsb_exists in E. destruct E as (x & Hin & Hx).
        apply filter_In in Hin. destruct Hin as [_ Hneg].
        rewrite Hx in Hneg. discriminate Hneg.
    + cbn. repeat split.
      * unfold isSelected. cbn. destruct sel; [discriminate Hsel|reflexivity].
      * exact Hsel.
  - unfold isItemSelected. cbn [selectedItems]. rewrite Hsel.
    unfold resetInputValue, setInputValue, addSelected, isSelected.
    assert (Happ : isNonEmpty (sel ++ [item]) = true)
      by (destruct sel; reflexivity).
    destruct im; cbn; rewrite Happ; cbn; rewrite ?Happ; repeat split;
      unfold some; rewrite existsb_app; cbn; rewrite ID_eqb_refl;
      rewrite orb_true_r; reflexivity.
Qed.

Lemma findIndex_range {A : Type} (p : A -> bool) (arr : list A) :
  findIndex p arr = -1 \/ 0 <= findIndex p arr < len arr.
Proof.
  unfold findIndex.
  destruct (findIndex_from_split p arr 0)
    as [[Hmiss _]|(before & x & after & -> & _ & _ & ->)].
  - left. exact Hmiss.
  - right. rewrite len_app, len_cons.
    pose proof (len_nonneg before). pose proof (len_nonneg after). lia.
Qed.

Lemma seedHighlightIndex_range config model :
  0 < len (toVisibleItems config model) ->
  0 <= seedHighlightIndex (toSelectedItemIndex config model)
  < len (toVisibleItems config model).
Proof.
  intros Hvis. unfold toSelectedItemIndex, seedHighlightIndex.
  match goal with
  | |- context [findIndex ?p ?arr] =>
      destruct (findIndex_range p arr) as [Hmiss|Hfound];
      [rewrite Hmiss; cbn; lia|];
      destruct (findIndex p arr =? -1) eqn:E; [lia|];
      destruct (findIndex p arr =? 0); lia
  end.
Qed.

Lemma resetInputValue_state config model :
  state (resetInputValue config model) = state model.
Proof.
  unfold resetInputValue, setInputValue.
  destruct (inputMode model); reflexivity.
Qed.

(** X26.  Right after a vertical arrow press that was not swallowed, the
    highlight is never out of range: if at least one item was visible when
    the key was pressed, any highlight index of the returned model is an
    index of that visible list, in every phase and select mode. *)
Theorem vertical_arrow_highlight_in_range config model key highlightIndex :
  0 < len (toVisibleItems config model) ->
  isSkipped model (PressedVerticalArrowKey key) = false ->
  state (fst (update config model (PressedVerticalArrowKey key)))
  = FocusedOpenedHighlighted highlightIndex ->
  0 <= highlightIndex < len (toVisibleItems config model).
Proof.
  intros Hvis Hskip. rewrite (update_unskipped config model _ Hskip).
  unfold updateUnskipped. cbn [fst updateSetters].
  rewrite scheduleSkips_state.
  pose proof (seedHighlightIndex_range config model Hvis) as Hseed.
  unfold updateModel. destruct (state model) eqn:Hst.
  - rewrite Hst. discriminate.
  - destruct (selectMode model); rewrite resetInputValue_state; cbn;
      intros Hnext; [discriminate Hnext|].
    injection Hnext as <-. exact Hseed.
  - match goal with
    | |- context [findIndex ?p ?arr =? -1] =>
        destruct (findIndex p arr =? -1)
    end; cbn; intros Hnext; injection Hnext as <-.
    + lia.
    + apply circularIndex_in_range. exact Hvis.
  - cbn. intros Hnext. injection Hnext as <-.
    apply circularIndex_in_range. exact Hvis.
  - destruct (selectMode model); rewrite resetInputValue_state; cbn;
      intros Hnext; [discriminate Hnext|].
    injection Hnext as <-. exact Hseed.
Qed.
End Highlight.


Lemma stray_highlight_is_no_highlight_witness :
  state Basket.strayHighlight = FocusedOpenedHighlighted 7 /\
  toItemStatus Fruits.config Basket.strayHighlight Fruits.apple = selected /\
  toItemStatus Fruits.config Basket.strayHighlight Fruits.pear = unselected.
Proof.
  split; [reflexivity|].
  assert (Hout : 7 < 0 \/
                 len (toVisibleItems Fruits.config Basket.strayHighlight) <= 7).
  { right. vm_compute. intros H. discriminate H. }
  destruct (stray_highlight_is_no_highlight Fruits.config
              Basket.strayHighlight 7 Fruits.apple eq_refl Hout)
    as (_ & _ & Happle & _).
  destruct (stray_highlight_is_no_highlight Fruits.config
              Basket.strayHighlight 7 Fruits.pear eq_refl Hout)
    as (_ & _ & Hpear & _).
  split; [rewrite Happle|rewrite Hpear]; reflexivity.
Defined.

Lemma enter_on_stray_highlight_closes_witness :
  state Basket.strayHighlight = FocusedOpenedHighlighted 7 /\
  update Fruits.config Basket.strayHighlight PressedEnterKey
  = (with_state Basket.strayHighlight FocusedClosed, []).
Proof.
  split; [reflexivity|].
  apply (enter_on_stray_highlight_closes Fruits.config Basket.strayHighlight
           7); [reflexivity| |reflexivity].
  right. vm_compute. intros H. discriminate H.
Defined.

Lemma enter_selects_highlighted_witness :
  at_index (toVisibleItems Fruits.config Fruits.pearHighlighted) 0
  = Some Fruits.pear /\
  selectedItems (fst (update Fruits.config Fruits.pearHighlighted
                        PressedEnterKey))
  = [Fruits.pear] /\
  update Numbers.config Numbers.zeroHighlighted PressedEnterKey
  = (with_state Numbers.zeroHighlighted FocusedClosed, []).
Proof.
  split; [reflexivity|]. split.
  - pose proof (enter_selects_highlighted Fruits.config
                  Fruits.pearHighlighted 0 Fruits.pear
                  eq_refl eq_refl eq_refl eq_refl eq_refl) as Hpear.
    cbv beta iota delta [truthy Fruits.Item_truthy] in Hpear.
    exact (proj1 Hpear).
  - exact (enter_selects_highlighted Numbers.config Numbers.zeroHighlighted
             0 0 eq_refl eq_refl eq_refl eq_refl eq_refl).
Defined.

Lemma pressed_item_selects_when_highlighted_witness :
  state Fruits.pearHighlighted = FocusedOpenedHighlighted 0 /\
  selectedItems
    (fst (update Fruits.config Fruits.pearHighlighted
            (PressedItem Fruits.apple)))
  = [Fruits.apple].
Proof.
  split; [reflexivity|].
  apply (pressed_item_selects_when_highlighted Fruits.config
           Fruits.pearHighlighted 0 Fruits.apple); reflexivity.
Defined.

Lemma pressed_item_toggles_in_multi_select_witness :
  selectMode Basket.multiHighlighted = MultiSelect LeftToRight /\
  selectedItems
    (fst (update Fruits.config Basket.multiHighlighted
            (PressedItem Fruits.apple)))
  = [Fruits.pear] /\
  selectedItems
    (fst (update Fruits.config Basket.multiHighlighted
            (PressedItem Fruits.banana)))
  = [Fruits.pear; Fruits.apple; Fruits.banana].
Proof.
  split; [reflexivity|].
  destruct (pressed_item_toggles_in_multi_select Fruits.config
              Basket.multiHighlighted 1 LeftToRight Fruits.apple
              eq_refl eq_refl eq_refl eq_refl) as (_ & Happle & _).
  destruct (pressed_item_toggles_in_multi_select Fruits.config
              Basket.multiHighlighted 1 LeftToRight Fruits.banana
              eq_refl eq_refl eq_refl eq_refl) as (_ & Hbanana & _).
  split; [rewrite Happle|rewrite Hbanana]; reflexivity.
Defined.

Lemma vertical_arrow_highlight_in_range_witness :
  state
    (fst (update Fruits.config Fruits.bananaChosen
            (PressedVerticalArrowKey arrow_down)))
  = FocusedOpenedHighlighted 2 /\
  0 <= 2 < len (toVisibleItems Fruits.config Fruits.bananaChosen).
Proof.
  split; [reflexivity|].
  apply (vertical_arrow_highlight_in_range Fruits.config Fruits.bananaChosen
           arrow_down 2); [|reflexivity|reflexivity].
  vm_compute. reflexivity.
Defined.


(** ** The default filter *)

Lemma includes_empty (s : string) : includes s EmptyString = true.
Proof. destruct s; reflexivity. Qed.

Section DefaultFilter.
Context {T : Type} {truthyT : Truthy T}.

(** X27.  With the configuration that [initConfig] builds, whatever filter
    was handed to it, every item is visible while the current input text is
    empty. *)
Theorem default_filter_shows_all_on_empty_text (toId : T -> ID)
    (toInputValue : T -> string) (isEmpty : option (T -> bool))
    (filterItems : option (Model T -> list T)) (name : option string)
    (model : Model T) :
  toCurrentInputValue
    (initConfig toId toInputValue isEmpty filterItems name) model
  = EmptyString ->
  toVisibleItems (initConfig toId toInputValue isEmpty filterItems name) model
  = allItems model.
Proof.
  intros Htext. unfold toVisibleItems.
  destruct (inputMode model) eqn:Him; [reflexivity|].
  cbn [deterministicFilter initConfig]. unfold simpleFilter.
  change (toCurrentInputValue _ model)
    with (toCurrentInputValue
            (initConfig toId toInputValue isEmpty filterItems name) model).
  rewrite Htext. cbn [toLowerCase].
  induction (allItems model) as [|x rest IH]; [reflexivity|].
  cbn [filter]. rewrite includes_empty, IH. reflexivity.
Qed.
End DefaultFilter.

Lemma default_filter_shows_all_on_empty_text_witness :
  toCurrentInputValue Fruits.config Basket.opened = EmptyString /\
  toVisibleItems Fruits.config Basket.opened = Fruits.fruits.
Proof.
  split; [reflexivity|].
  apply (default_filter_shows_all_on_empty_text
           (fun item => IdNumber (Fruits.id item)) Fruits.label None None None
           Basket.opened).
  reflexivity.
Defined.

(** ** Chips *)

Ltac break_in H :=
  repeat match type of H with
         | context [match ?x with _ => _ end] => destruct x
         end.

Section Chips.
Context {T : Type} {truthyT : Truthy T}.
Implicit Types (config : Config T) (model : Model T) (msg : Msg T).

(** X28.  After a [focused-selected-item] that the phase has a case for
    (every phase but [focused__opened]), [isSelectedItemFocused] answers
    true for the item of the event, and the selection is unchanged. *)
Theorem focused_chip_is_reported config model item :
  hasCase (state model) focused_selected_item = true ->
  isSkipped model (FocusedSelectedItem item) = false ->
  isSelectedItemFocused config
    (fst (update config model (FocusedSelectedItem item))) item
  = true /\
  selectedItems (fst (update config model (FocusedSelectedItem item)))
  = selectedItems model.
Proof.
  intros Hcase Hskip. rewrite (update_unskipped config model _ Hskip).
  unfold updateUnskipped. cbn [fst updateSetters].
  unfold isSelectedItemFocused.
  rewrite scheduleSkips_state, scheduleSkips_selectedItems.
  destruct model as [st all sel sk sm im]. cbn in Hcase.
  destruct st; try discriminate Hcase; cbn; split;
    solve [apply Z.eqb_refl | reflexivity].
Qed.

(** X29.  An [update] that is not swallowed requests [focus-selected-item]
    for an item exactly when the returned model has the chip focus on an
    index of its [selectedItems] that holds that item and the item is
    truthy; a falsy item under the chip focus is requested no focus. *)
Theorem focus_effect_names_focused_chip config model msg item :
  isSkipped model msg = false ->
  In (FocusSelectedItem item) (snd (update config model msg)) <->
  exists focusedIndex,
    state (fst (update config model msg))
    = SelectedItemHighlighted focusedIndex /\
    at_index (selectedItems (fst (update config model msg))) focusedIndex
    = Some item /\
    truthy item = true.
Proof.
  intros Hskip. rewrite (update_unskipped config model _ Hskip).
  unfold updateUnskipped. cbn [fst snd].
  rewrite scheduleSkips_state, scheduleSkips_selectedItems.
  set (next := updateSetters (updateModel config model msg) msg).
  unfold toEffects. fold next. rewrite !in_app_iff. split.
  - intros [H|[H|[H|[H|[H|H]]]]].
    + break_in H; cbn in H; intuition discriminate.
    + break_in H; cbn in H; intuition discriminate.
    + break_in H; cbn in H; intuition discriminate.
    + destruct (state next) eqn:Hst; try (cbn in H; tauto).
      unfold at_truthy in H.
      destruct (at_index (selectedItems next) focusedIndex) as [x|] eqn:Hat;
        [|cbn in H; tauto].
      destruct (truthy x) eqn:Hx; [|cbn in H; tauto].
      destruct H as [H|[]]. injection H as ->.
      exists focusedIndex. repeat split; trivial.
    + break_in H; cbn in H; intuition discriminate.
    + break_in H; cbn in H; intuition discriminate.
  - intros (focusedIndex & Hst & Hat & Htruthy). do 3 right. left.
    unfold at_truthy. rewrite Hst, Hat, Htruthy. left. reflexivity.
Qed.
End Chips.

Lemma focused_chip_is_reported_witness :
  hasCase (state Basket.multiHighlighted) focused_selected_item = true /\
  isSelectedItemFocused Fruits.config
    (fst (update Fruits.config Basket.multiHighlighted
            (FocusedSelectedItem Fruits.apple))) Fruits.apple
  = true.
Proof.
  split; [reflexivity|].
  apply (focused_chip_is_reported Fruits.config Basket.multiHighlighted
           Fruits.apple); reflexivity.
Defined.

Lemma focus_effect_names_focused_chip_witness :
  isSkipped Fruits.chipFocused
    (PressedHorizontalArrowKey arrow_right : Msg Fruits.Item) = false /\
  In (FocusSelectedItem Fruits.apple)
    (snd (update Fruits.config Fruits.chipFocused
            (PressedHorizontalArrowKey arrow_right))) /\
  state (fst (update Numbers.config Numbers.zeroChip (BlurredSelectedItem 0)))
  = SelectedItemHighlighted 0 /\
  at_index
    (selectedItems
       (fst (update Numbers.config Numbers.zeroChip (BlurredSelectedItem 0))))
    0
  = Some 0 /\
  ~ In (FocusSelectedItem 0)
      (snd (update Numbers.config Numbers.zeroChip
              (BlurredSelectedItem 0))).
Proof.
  split; [reflexivity|]. split; [|split; [reflexivity|split; [reflexivity|]]].
  - apply (focus_effect_names_focused_chip Fruits.config Fruits.chipFocused
             (PressedHorizontalArrowKey arrow_right) Fruits.apple);
      [reflexivity|].
    exists 1. repeat split; reflexivity.
  - intros Hin.
    apply (focus_effect_names_focused_chip Numbers.config Numbers.zeroChip
             (BlurredSelectedItem 0) 0) in Hin; [|reflexivity].
    destruct Hin as (focusedIndex & _ & _ & Hfalsy). discriminate Hfalsy.
Defined.

(** ** Keys *)

Section Keys.
Context {T : Type} {truthyT : Truthy T}.

(** X30.  [keyToMsg] answers keyboard messages only.  It raises
    [shouldPreventDefault] exactly for the vertical arrows and Enter; an
    unrecognised key comes back as [pressed-key] with the key as it was
    given; and two keys that agree after lower-casing and trimming get the
    same message type and the same flag. *)
Theorem keyToMsg_keyboard_only (key : string) :
  isKeyboard (msg_type (fst (@keyToMsg T key))) = true /\
  snd (@keyToMsg T key)
  = (MsgType_eqb (msg_type (fst (@keyToMsg T key)))
       pressed_vertical_arrow_key
     || MsgType_eqb (msg_type (fst (@keyToMsg T key))) pressed_enter_key) /\
  (msg_type (fst (@keyToMsg T key)) = pressed_key ->
   fst (@keyToMsg T key) = PressedKey key) /\
  (forall key',
      trim (toLowerCase key') = trim (toLowerCase key) ->
      msg_type (fst (@keyToMsg T key')) = msg_type (fst (@keyToMsg T key)) /\
      snd (@keyToMsg T key') = snd (@keyToMsg T key)).
Proof.
  repeat split.
  - unfold keyToMsg. repeat break_match; reflexivity.
  - unfold keyToMsg. repeat break_match; reflexivity.
  - unfold keyToMsg. repeat break_match; cbn; intros H;
      try discriminate H; reflexivity.
  - unfold keyToMsg, keyEq. rewrite H. repeat break_match; reflexivity.
  - unfold keyToMsg, keyEq. rewrite H. repeat break_match; reflexivity.
Qed.
End Keys.

Lemma keyToMsg_keyboard_only_witness :
  trim (toLowerCase "  ARROWDOWN ") = trim (toLowerCase "ArrowDown") /\
  @keyToMsg Fruits.Item "  ARROWDOWN "
  = (PressedVerticalArrowKey arrow_down, true) /\
  msg_type (fst (@keyToMsg Fruits.Item "  ARROWDOWN "))
  = msg_type (fst (@keyToMsg Fruits.Item "ArrowDown")).
Proof.
  split; [reflexivity|]. split; [reflexivity|].
  destruct (@keyToMsg_keyboard_only Fruits.Item "ArrowDown"%string)
    as (_ & _ & _ & Hsame).
  apply (Hsame "  ARROWDOWN "%string). reflexivity.
Defined.
